(** * cck_gpx: a shallow embedding of [cck_gpx.py]

    The script scrapes a saved route page of a food-delivery web application
    and writes the route's stops to a GPX file.  This development embeds

    - the helper functions [place_id_from_google_maps_url], [firstnameish]
      and [match_tags];
    - the script body (argument check, route list, per-item strict
      extraction with its fallback, post-loop accounting, route
      description, output).

    Python values are modelled as follows.  A [str] is a [string] whose
    characters are read as code points below 256.  A [dict] is a [gmap].
    An exception is a value of [exn]; a computation that may raise returns
    an [outcome].  Text written to [sys.stderr] is a list of lines, oldest
    first.  The libraries the script imports (lxml's XPath engine on pattern
    expressions, urllib, openlocationcode, the file system) are not part of
    the script: they are the fields of the record [extlib], and every general
    statement quantifies over them.  A concrete [extlib] is defined further
    down to run the script on example pages. *)

From stdpp Require Import gmap strings list.
From Stdlib Require Import Ascii DecimalString.

Set Warnings "-register-all".

(** ** Python strings *)

Module Py.

(** [str.isspace] on one character (code points below 256): TAB, LF, VT, FF,
    CR, FS, GS, RS, US, SPACE, NEL and NBSP. *)
Definition isspace (c : ascii) : bool :=
  let n := nat_of_ascii c in
  ((9 <=? n) && (n <=? 13)) || ((28 <=? n) && (n <=? 32))
  || (n =? 133) || (n =? 160).

(** [s.lstrip()] *)
Fixpoint lstrip (s : string) : string :=
  match s with
  | String c s' => if isspace c then lstrip s' else s
  | EmptyString => EmptyString
  end.

(** [s.rstrip()] *)
Fixpoint rstrip (s : string) : string :=
  match s with
  | String c s' =>
      match rstrip s' with
      | EmptyString => if isspace c then EmptyString else String c EmptyString
      | r => String c r
      end
  | EmptyString => EmptyString
  end.

(** [s.strip()] *)
Definition strip (s : string) : string := rstrip (lstrip s).

(** Does [s] begin with a non-whitespace character? *)
Definition begins_word (s : string) : bool :=
  match s with
  | String c _ => negb (isspace c)
  | EmptyString => false
  end.

(** [s.split()]: the maximal runs of non-whitespace characters, in order. *)
Fixpoint split (s : string) : list string :=
  match s with
  | EmptyString => []
  | String c s' =>
      let r := split s' in
      if isspace c then r
      else if begins_word s' then
        match r with
        | w :: ws => String c w :: ws
        | [] => [String c EmptyString]
        end
      else String c EmptyString :: r
  end.

(** [s] holds no whitespace. *)
Fixpoint no_space (s : string) : bool :=
  match s with
  | String c s' => negb (isspace c) && no_space s'
  | EmptyString => true
  end.

(** [s] is one word: not empty, and without whitespace. *)
Definition is_word (s : string) : bool :=
  match s with
  | String _ _ => no_space s
  | EmptyString => false
  end.

(** [sep.join(l)] *)
Fixpoint join (sep : string) (l : list string) : string :=
  match l with
  | [] => EmptyString
  | [x] => x
  | x :: l' => x +:+ sep +:+ join sep l'
  end.

(** [s.startswith(p)] *)
Definition startswith (p s : string) : bool := String.prefix p s.

(** [s[n:]] *)
Fixpoint drop (n : nat) (s : string) : string :=
  match n, s with
  | S n', String _ s' => drop n' s'
  | _, _ => s
  end.

(** [sub in s] *)
Fixpoint contains (sub s : string) : bool :=
  String.prefix sub s
  || match s with
     | String _ s' => contains sub s'
     | EmptyString => false
     end.

(** ["%d" % n] for a non-negative integer. *)
Definition str_of_nat (n : nat) : string :=
  NilEmpty.string_of_uint (Nat.to_uint n).

(** ["%s" % v] for a value that is a [str] or [None]. *)
Definition str_of_opt (v : option string) : string :=
  match v with
  | Some s => s
  | None => "None"
  end.

(** Truthiness of a value that is a [str] or [None]. *)
Definition truthy (v : option string) : bool :=
  match v with
  | Some (String _ _) => true
  | _ => false
  end.

End Py.

(** ** Exceptions *)

Inductive exn : Type :=
| ValueError (msg : string)
| KeyError (key : string)
| TypeError (msg : string)
| IndexError (msg : string)
| AttributeError (msg : string)
| OSError (msg : string)
| SystemExit (status : nat).

(** [str(e)], as [print(e)] shows it. *)
Definition str_of_exn (x : exn) : string :=
  match x with
  | ValueError m | TypeError m | IndexError m | AttributeError m | OSError m => m
  | KeyError k => "'" +:+ k +:+ "'"
  | SystemExit n => Py.str_of_nat n
  end.

Inductive outcome (A : Type) : Type :=
| Ret (a : A)
| Raise (x : exn).
Arguments Ret {A} a.
Arguments Raise {A} x.

(** Sequencing: the first exception raised ends the computation.  The
    instances give [outcome] stdpp's notation [x ← m; k]. *)
#[global] Instance outcome_ret : MRet outcome := fun _ a => Ret a.
#[global] Instance outcome_bind : MBind outcome := fun _ _ k m =>
  match m with
  | Ret a => k a
  | Raise x => Raise x
  end.

(** A ValueError from unpacking a sequence into a tuple of the wrong
    length, as in [(x,) = seq]. *)
Definition unpack_error (expected got : nat) : exn :=
  if got <? expected
  then ValueError ("not enough values to unpack (expected "
                   +:+ Py.str_of_nat expected +:+ ", got "
                   +:+ Py.str_of_nat got +:+ ")")
  else ValueError ("too many values to unpack (expected "
                   +:+ Py.str_of_nat expected +:+ ")").

(** [(x,) = seq] *)
Definition unpack1 {A} (l : list A) : outcome A :=
  match l with
  | [x] => Ret x
  | _ => Raise (unpack_error 1 (length l))
  end.

(** [(x, y,) = seq] *)
Definition unpack2 {A} (l : list A) : outcome (A * A) :=
  match l with
  | [x; y] => Ret (x, y)
  | _ => Raise (unpack_error 2 (length l))
  end.

(** [d[k]] on a value that is a dict or [None]. *)
Definition subscript {V} (d : option (gmap string V)) (k : string) : outcome V :=
  match d with
  | None => Raise (TypeError "'NoneType' object is not subscriptable")
  | Some m =>
      match m !! k with
      | Some v => Ret v
      | None => Raise (KeyError k)
      end
  end.

(** ** The document tree *)

Inductive node : Type :=
| Element (tag : string) (attrib : list (string * string)) (children : list node)
| TextNode (data : string)
| Comment (data : string).

Module Dom.

(** [etree.iselement(x)] on an XPath result. *)
Definition iselement (n : node) : bool :=
  match n with
  | Element _ _ _ => true
  | _ => false
  end.

Definition child_nodes (n : node) : list node :=
  match n with
  | Element _ _ kids => kids
  | _ => []
  end.

Definition has_tag (t : string) (n : node) : bool :=
  match n with
  | Element t' _ _ => bool_decide (t' = t)
  | _ => false
  end.

(** XPath white space: SPACE, TAB, CR, LF. *)
Definition xml_space (c : ascii) : bool :=
  let n := nat_of_ascii c in
  (n =? 32) || (n =? 9) || (n =? 13) || (n =? 10).

(** [normalize-space(s) = ''] *)
Fixpoint blank (s : string) : bool :=
  match s with
  | EmptyString => true
  | String c s' => xml_space c && blank s'
  end.

(** The node test of [*|text()[normalize-space()!='']]. *)
Definition element_or_nonblank_text (n : node) : bool :=
  match n with
  | Element _ _ _ => true
  | TextNode s => negb (blank s)
  | Comment _ => false
  end.

(** [n.xpath("*|text()[normalize-space()!='']")] *)
Definition xpath_elements_and_text (n : node) : list node :=
  List.filter element_or_nonblank_text (child_nodes n).

(** [n.xpath(t)] for a tag name [t]: the element children named [t]. *)
Definition xpath_child (t : string) (n : node) : list node :=
  List.filter (has_tag t) (child_nodes n).

(** The proper descendants of a node, in document order. *)
Fixpoint descendants (n : node) : list node :=
  match n with
  | Element _ _ kids =>
      (fix go (l : list node) : list node :=
         match l with
         | [] => []
         | k :: l' => k :: descendants k ++ go l'
         end) kids
  | _ => []
  end.

(** [n.xpath('.//' + t)] for a tag name [t]. *)
Definition xpath_descendant (t : string) (n : node) : list node :=
  List.filter (has_tag t) (descendants n).

(** [tree.xpath('//' + t)] on the tree whose root element is [root]. *)
Definition xpath_anywhere (t : string) (root : node) : list node :=
  List.filter (has_tag t) (root :: descendants root).

(** [n.get(name)] *)
Definition get (name : string) (n : node) : option string :=
  match n with
  | Element _ attrs _ => snd <$> List.find (fun kv => bool_decide (fst kv = name)) attrs
  | _ => None
  end.

(** [n.xpath(".//a[contains(@href, sub)]")] *)
Definition xpath_links_containing (sub : string) (n : node) : list node :=
  List.filter
    (fun k => has_tag "a" k
              && match get "href" k with
                 | Some h => Py.contains sub h
                 | None => false
                 end)
    (descendants n).

(** [n.text_content()]: the text nodes below [n], concatenated. *)
Fixpoint text_content (n : node) : string :=
  match n with
  | Element _ _ kids =>
      (fix go (l : list node) : string :=
         match l with
         | [] => EmptyString
         | k :: l' => text_content k +:+ go l'
         end) kids
  | TextNode s => s
  | Comment _ => EmptyString
  end.

End Dom.

(** ** The libraries the script imports *)

(** The part of [urllib.parse.urlparse(url)] the script reads. *)
Record parse_result : Type := ParseResult {
  scheme : string;
  path : string
}.

Record extlib : Type := ExtLib {
  (** lxml: [node.xpath('self::' + e)] for a pattern expression [e] that
      lxml evaluates to a list of nodes.  An expression that lxml refuses, or
      evaluates to a number, a string or a truth value, is outside the
      model. *)
  xpath_self : string -> node -> list node;
  (** lxml: [html.parse(filename)], as the root element of the tree. *)
  html_parse : string -> outcome node;
  (** [urllib.parse.urlparse(url)]; the argument may be [None]. *)
  urlparse : option string -> outcome parse_result;
  (** [urllib.parse.unquote(s)] *)
  unquote : string -> string;
  (** The type of a latitude or longitude. *)
  coord : Type;
  (** [olc.isValid(code)] *)
  olc_isValid : string -> bool;
  (** [olc.isFull(code)] *)
  olc_isFull : string -> bool;
  (** [olc.decode(code).latlng()] for a full code. *)
  olc_decode_latlng : string -> coord * coord;
  (** [open(filename, 'w', encoding='utf-8')]: may the file be written? *)
  open_w : string -> outcome unit
}.

(** ** Helper functions *)

(** The greedy group [( .* )] followed by [$], matched against all of [s]:
    [.] is any character but LF, and [$] matches at the end of the string or
    before a final LF.  The result is the text of the group. *)
Fixpoint re_dot_star_end (s : string) : option string :=
  match s with
  | EmptyString => Some EmptyString
  | String c s' =>
      if (nat_of_ascii c =? 10)%nat then
        match s' with
        | EmptyString => Some EmptyString
        | _ => None
        end
      else String c <$> re_dot_star_end s'
  end.

(** [re.match] of the pattern [/maps/place/] followed by [( .* )$] on [s]:
    group 1 of the match, or [None]. *)
Definition re_match_maps_place (s : string) : option string :=
  if Py.startswith "/maps/place/" s
  then re_dot_star_end (Py.drop 12 s)
  else None.

Definition ascii_letter (c : ascii) : bool :=
  let n := nat_of_ascii c in
  ((65 <=? n) && (n <=? 90)) || ((97 <=? n) && (n <=? 122)).

(** Does [re.match] find the pattern of an initial in [s]: one ASCII letter,
    an optional period, then [$] (the end, or a final LF)? *)
Definition re_match_initial (s : string) : bool :=
  match s with
  | String c r =>
      ascii_letter c
      && bool_decide (r ∈ [""; "."; String "010" ""; String "." (String "010" "")])
  | EmptyString => false
  end.

(** [s[0]] for a non-empty [s] (the empty string for an empty one, which
    [firstnameish] never asks for: see [split_nonempty]). *)
Definition first_char (s : string) : string :=
  match s with
  | String c _ => String c EmptyString
  | EmptyString => EmptyString
  end.

(** The [for index in range(2)] loop of [firstnameish], from the indices
    still to visit and the [namelist] gathered so far, to the [namelist] at
    the end of the loop.  [names[index]] is in range at every use, since the
    loop stops at [len(names) - 1]. *)
Fixpoint firstnameish_loop (names : list string) (indices : list nat)
    (namelist : list string) : list string :=
  match indices with
  | [] => namelist
  | index :: indices' =>
      if (index =? length names - 1)%nat then
        namelist ++ [first_char (nth index names "") +:+ "."]
      else
        let namelist := namelist ++ [nth index names ""] in
        if negb (re_match_initial (nth index names "")) then namelist
        else firstnameish_loop names indices' namelist
  end.

Definition firstnameish (fullname : string) : option string :=
  let names := Py.split fullname in
  match names with
  | [] => None
  | [name] => Some name
  | _ => Some (Py.join " " (firstnameish_loop names [0; 1] []))
  end.

(** A slot of a pattern: the dict [{'e': ..., 'bind': ..., 'opt': ...}].
    [slot_opt] is true when the key ['opt'] is present with value [True]. *)
Record slot : Type := Slot {
  slot_e : string;
  slot_bind : option string;
  slot_opt : bool
}.

Section helpers.

Context (L : extlib).

Definition place_id_from_google_maps_url (url : option string)
    : outcome (option string) :=
  parsed ← urlparse L url;
  let path := unquote L (path parsed) in
  let path := Py.rstrip path in
  Ret (re_match_maps_place path).

(** The slot's expression selects exactly one node at [n]. *)
Definition matches_once (tagd : slot) (n : node) : Prop :=
  length (xpath_self L (slot_e tagd) n) = 1.

(** The [for tagd in pattern] loop of [match_tags]. *)
Fixpoint match_tags_loop (pattern : list slot) (nodelist : list node)
    (result : gmap string node) : outcome (option (gmap string node)) :=
  match pattern with
  | [] => Ret (Some result)
  | tagd :: pattern' =>
      match nodelist with
      | [] => Raise (IndexError "pop from empty list")
      | node :: nodelist' =>
          let matches := xpath_self L (slot_e tagd) node in
          if (1 <? length matches)%nat then
            Raise (ValueError ("Pattern '" +:+ slot_e tagd +:+ "' returned >1 match"))
          else
            match matches with
            | [] => Ret None
            | match_ :: _ =>
                match_tags_loop pattern' nodelist'
                  match slot_bind tagd with
                  | Some name => <[name := match_]> result
                  | None => result
                  end
            end
      end
  end.

Definition match_tags (startnode : node) (pattern : list slot)
    : outcome (option (gmap string node)) :=
  let nodelist := Dom.xpath_elements_and_text startnode in
  if existsb (fun x => negb (Dom.iselement x)) nodelist then Ret None
  else
    let pattern_mandatory := List.filter (fun tagd => negb (slot_opt tagd)) pattern in
    if (1 <? length pattern - length pattern_mandatory)%nat then
      Raise (ValueError ">1 optional element in pattern")
    else if (length pattern - length pattern_mandatory =? 1)%nat then
      if (length pattern =? length nodelist + 1)%nat then
        match_tags_loop pattern_mandatory nodelist ∅
      else if negb (length pattern =? length nodelist)%nat then
        Ret None
      else
        match_tags_loop pattern nodelist ∅
    else
      match_tags_loop pattern nodelist ∅.

End helpers.

(** ** The script *)

(** What the script does to the world: the lines printed to [sys.stderr],
    oldest first, and the files written. *)
Record waypoint (C : Type) : Type := Waypoint {
  wp_name : option string;
  wp_lat : C;
  wp_lng : C
}.
Arguments Waypoint {C} _ _ _.
Arguments wp_name {C} _.
Arguments wp_lat {C} _.
Arguments wp_lng {C} _.

(** The [gpxpy.gpx.GPX] object the script builds. *)
Record gpx (C : Type) : Type := Gpx {
  gpx_description : option string;
  gpx_waypoints : list (waypoint C)
}.
Arguments Gpx {C} _ _.
Arguments gpx_description {C} _.
Arguments gpx_waypoints {C} _.

Record world (C : Type) : Type := World {
  stderr : list string;
  files : list (string * gpx C)
}.
Arguments World {C} _ _.
Arguments stderr {C} _.
Arguments files {C} _.

(** A statement of the script: from the world before to its outcome and the
    world after.  What was printed before an exception stays printed. *)
Definition script (C A : Type) : Type := world C -> outcome A * world C.

Section script_monad.

Context {C : Type}.

Definition sret {A} (a : A) : script C A := fun w => (Ret a, w).

Definition sbind {A B} (m : script C A) (k : A -> script C B) : script C B :=
  fun w =>
    match m w with
    | (Ret a, w') => k a w'
    | (Raise x, w') => (Raise x, w')
    end.

(** A computation without effect on the world. *)
Definition lift {A} (m : outcome A) : script C A := fun w => (m, w).

Definition raise {A} (x : exn) : script C A := fun w => (Raise x, w).

(** [print(line, file=sys.stderr)] *)
Definition print_err (line : string) : script C unit :=
  fun w => (Ret tt, World (stderr w ++ [line]) (files w)).

(** [gpxfile.write(gpx.to_xml())] into the file opened as [filename]. *)
Definition write_gpx (filename : string) (g : gpx C) : script C unit :=
  fun w => (Ret tt, World (stderr w) (files w ++ [(filename, g)])).

(** [try: body except (the exceptions of handles) as e: handler e] *)
Definition try_except {A} (body : script C A) (handles : exn -> bool)
    (handler : exn -> script C A) : script C A :=
  fun w =>
    match body w with
    | (Raise x, w') => if handles x then handler x w' else (Raise x, w')
    | r => r
    end.

End script_monad.

#[global] Instance script_ret {C} : MRet (script C) := fun _ a => sret a.
#[global] Instance script_bind {C} : MBind (script C) := fun _ _ k m => sbind m k.

Definition is_ValueError (x : exn) : bool :=
  match x with
  | ValueError _ => true
  | _ => false
  end.

(** [except (ValueError, KeyError, TypeError)] *)
Definition is_Value_Key_TypeError (x : exn) : bool :=
  match x with
  | ValueError _ | KeyError _ | TypeError _ => true
  | _ => false
  end.

(** [except (ValueError, KeyError)] *)
Definition is_Value_KeyError (x : exn) : bool :=
  match x with
  | ValueError _ | KeyError _ => true
  | _ => false
  end.

(** [k in d] on a value that is a dict or [None]. *)
Definition py_in {V} (k : string) (d : option (gmap string V)) : outcome bool :=
  match d with
  | None => Raise (TypeError "argument of type 'NoneType' is not iterable")
  | Some m => Ret (bool_decide (is_Some (m !! k)))
  end.

(** [sys.argv[i]] *)
Definition argv_get (argv : list string) (i : nat) : outcome string :=
  match argv !! i with
  | Some a => Ret a
  | None => Raise (IndexError "list index out of range")
  end.

(** The patterns the script passes to [match_tags]. *)
Definition pattern_item : list slot :=
  [ Slot "div" (Some "div1") false ].

Definition pattern_stop : list slot :=
  [ Slot "div" (Some "name_olc_div") false;
    Slot "p" (Some "addr_p") false;
    Slot "div" (Some "portions_div") false;
    Slot "p" (Some "insns_p") false;
    Slot "p" (Some "allergies_p") false;
    Slot "p" (Some "nothome_p") true;
    Slot "div" (Some "links_div") false ].

Definition pattern_name_olc : list slot :=
  [ Slot "p" (Some "fullname_p") false;
    Slot "p" (Some "olc_p") false ].

Definition pattern_links : list slot :=
  [ Slot "a[contains(text(),'Google Maps')]" (Some "maplink_a") false;
    Slot "a[contains(text(),'Call')]" (Some "tellink_a") true;
    Slot "div[not(node())]" None false;
    Slot "button" None false ].

Definition pattern_content : list slot :=
  [ Slot "div" (Some "route_reset_div") false;
    Slot "div" (Some "dish_div") true;
    Slot "ul" None false;
    Slot "div" None false ].

Definition boilerplate : string :=
  "If no-one's home and you can't make contact: ".

Section script_body.

Context (L : extlib).

Abbreviation C := (coord L).

(** The dict [fields]; the value of ['mapurl'] is [None] when the link has
    no [href]. *)
Abbreviation fields_t := (gmap string (option string)).

(** Lines 275-336 of the [try] block: the structure of the list item, read
    into [fields].  The result is [ptname], [fields] and the match [l3] of
    the links block. *)
Definition strict_fields (listitem : node)
    : outcome (option string * fields_t * option (gmap string node)) :=
  l1 ← match_tags L listitem pattern_item;
  let fields : fields_t := ∅ in
  div1 ← subscript l1 "div1";
  l2 ← match_tags L div1 pattern_stop;
  name_olc_div ← subscript l2 "name_olc_div";
  l3 ← match_tags L name_olc_div pattern_name_olc;
  fullname_p ← subscript l3 "fullname_p";
  let fullname := Py.strip (Dom.text_content fullname_p) in
  let fields := <["fullname" := Some fullname]> fields in
  let ptname := firstnameish fullname in
  olc_p ← subscript l3 "olc_p";
  let fields := <["placeid" := Some (Py.strip (Dom.text_content olc_p))]> fields in
  addr_p ← subscript l2 "addr_p";
  let fields := <["address" := Some (Py.strip (Dom.text_content addr_p))]> fields in
  portions_div ← subscript l2 "portions_div";
  let portionstext := Dom.text_content portions_div in
  if negb (Py.contains "portion" portionstext) then
    Raise (ValueError ("Didn't find 'portion' where expected (found '"
                       +:+ portionstext +:+ "'); assuming lost"))
  else
    let fields := <["portions" := Some (Py.strip portionstext)]> fields in
    insns_p ← subscript l2 "insns_p";
    let fields := <["instructions" := Some (Py.strip (Dom.text_content insns_p))]> fields in
    allergies_p ← subscript l2 "allergies_p";
    let fields := <["allergies" := Some (Py.strip (Dom.text_content allergies_p))]> fields in
    has_nothome ← py_in "nothome_p" l2;
    fields ← (if has_nothome : bool then
                nothome_p ← subscript l2 "nothome_p";
                let nothome := Py.strip (Dom.text_content nothome_p) in
                let nothome :=
                  if Py.startswith boilerplate nothome
                  then Py.drop (String.length boilerplate) nothome
                  else nothome in
                Ret (<["nothome" := Some (Py.strip nothome)]> fields)
              else Ret fields);
    links_div ← subscript l2 "links_div";
    l3 ← match_tags L links_div pattern_links;
    maplink_a ← subscript l3 "maplink_a";
    let fields := <["mapurl" := Dom.get "href" maplink_a]> fields in
    Ret (ptname, fields, l3).

(** Lines 349-366: the optional 'Call' link. *)
Definition strict_telephone (fields : fields_t) (l3 : option (gmap string node))
    : outcome fields_t :=
  has_tellink ← py_in "tellink_a" l3;
  if has_tellink : bool then
    tellink_a ← subscript l3 "tellink_a";
    let tellink := Dom.get "href" tellink_a in
    tel_parsed ← urlparse L tellink;
    if bool_decide (scheme tel_parsed = "tel") then
      Ret (<["telephone" := Some (unquote L (path tel_parsed))]> fields)
    else
      match tellink with
      | None =>
          if bool_decide (scheme tel_parsed = "")
          then Raise (AttributeError "'NoneType' object has no attribute 'startswith'")
          else Raise (ValueError "Expecting tel: URL, got 'None'; assuming lost")
      | Some tellink =>
          if bool_decide (scheme tel_parsed = "") && Py.startswith "tel:" tellink then
            Ret (<["telephone" := Some (unquote L (Py.drop 4 tellink))]> fields)
          else
            Raise (ValueError ("Expecting tel: URL, got '" +:+ tellink
                               +:+ "'; assuming lost"))
      end
  else Ret fields.

(** Lines 337-366: the checks on the place id, then the 'Call' link.  The
    result is [placeid] and [fields].  The value of [fields['placeid']] is a
    [str], never [None]: [strict_fields] stored stripped text there. *)
Definition strict_checks (fields : fields_t) (l3 : option (gmap string node))
    : outcome (option string * fields_t) :=
  mapurl ← subscript (Some fields) "mapurl";
  placeid_from_url ← place_id_from_google_maps_url L mapurl;
  fields_placeid ← subscript (Some fields) "placeid";
  if negb (bool_decide (fields_placeid = placeid_from_url)) then
    Raise (ValueError ("Thought '" +:+ Py.str_of_opt fields_placeid
                       +:+ "' was the plus code, but it doesn't match the map URL ('"
                       +:+ Py.str_of_opt placeid_from_url +:+ "'); assuming lost"))
  else if negb (olc_isValid L (Py.str_of_opt fields_placeid)) then
    Raise (ValueError ("Thought '" +:+ Py.str_of_opt fields_placeid
                       +:+ "' was the plus code, but it doesn't seem valid; assuming lost"))
  else
    let placeid := fields_placeid in
    fields ← strict_telephone fields l3;
    Ret (placeid, fields).

(** The body of the [try] block of the loop over the list items: the stop's
    name and place id. *)
Definition strict_extract (listitem : node) : outcome (option string * option string) :=
  '(ptname, fields, l3) ← strict_fields listitem;
  '(placeid, fields) ← strict_checks fields l3;
  Ret (ptname, placeid).

(** The [except (ValueError, KeyError, TypeError) as e] block of the loop. *)
Definition fallback (index total : nat) (listitem : node) (e : exn)
    : script C (option string * option string) :=
  print_err (str_of_exn e);;
  print_err ("Failed to fully understand route point " +:+ Py.str_of_nat (index + 1)
             +:+ " (of " +:+ Py.str_of_nat total +:+ "), falling back to URL-only");;
  let ptname := "Delivery no " +:+ Py.str_of_nat (index + 1) in
  placeid ← try_except
    (lift (maplink_a ← unpack1 (Dom.xpath_links_containing "google.com/maps" listitem);
           place_id_from_google_maps_url L (Dom.get "href" maplink_a)))
    is_ValueError
    (fun _ =>
       print_err ("Fallback failed to find map URL for point "
                  +:+ Py.str_of_nat (index + 1) +:+ "!");;
       mret None);
  mret (Some ptname, placeid).

(** Lines 385-398: the place id as a plus code. *)
Definition convert (index : nat) (ptname placeid : option string)
    (routepoints : list (waypoint C)) : script C (list (waypoint C)) :=
  if Py.truthy placeid && olc_isValid L (Py.str_of_opt placeid)
     && olc_isFull L (Py.str_of_opt placeid) then
    let '(lat, lng) := olc_decode_latlng L (Py.str_of_opt placeid) in
    mret (routepoints ++ [Waypoint ptname lat lng])
  else
    print_err ("Couldn't parse point " +:+ Py.str_of_nat (index + 1)
               +:+ "'s place ID '" +:+ Py.str_of_opt placeid
               +:+ "' as a full-length plus code");;
    mret routepoints.

(** One turn of the loop [for (index, listitem) in enumerate(ulistitems)]. *)
Definition process_item (index total : nat) (listitem : node)
    (routepoints : list (waypoint C)) : script C (list (waypoint C)) :=
  '(ptname, placeid) ← try_except (lift (strict_extract listitem))
                          is_Value_Key_TypeError
                          (fallback index total listitem);
  convert index ptname placeid routepoints.

(** The item is handed to the fallback: its strict extraction raises one of
    the exceptions of the [except] clause. *)
Definition falls_back (listitem : node) : Prop :=
  ∃ e, strict_extract listitem = Raise e ∧ is_Value_Key_TypeError e = true.

(** The loop, from [index] on. *)
Fixpoint process_items (index total : nat) (items : list node)
    (routepoints : list (waypoint C)) : script C (list (waypoint C)) :=
  match items with
  | [] => mret routepoints
  | listitem :: items' =>
      routepoints ← process_item index total listitem routepoints;
      process_items (S index) total items' routepoints
  end.

(** Lines 400-405, after the loop. *)
Definition post_loop (routepoints : list (waypoint C)) (ulistitems : list node)
    : script C unit :=
  (if negb (length routepoints =? length ulistitems)%nat then
     print_err ("Route incomplete - only understood "
                +:+ Py.str_of_nat (length routepoints) +:+ " out of "
                +:+ Py.str_of_nat (length ulistitems) +:+ " points!")
   else mret tt);;
  if (length routepoints =? 0)%nat then
    print_err "No route points to emit, giving up.";;
    raise (SystemExit 1)
  else mret tt.

(** Lines 410-427: the route description. *)
Definition route_metadata (main : node) : script C (option string) :=
  try_except
    (lift ('(_, l1div2) ← unpack2 (Dom.xpath_child "div" main);
           l2 ← match_tags L l1div2 pattern_content;
           route_reset_div ← subscript l2 "route_reset_div";
           l3div1 ← unpack1 (Dom.xpath_child "div" route_reset_div);
           let route_description := Dom.text_content l3div1 in
           let route_description := Py.join " " (Py.split route_description) in
           Ret (Some route_description)))
    is_Value_KeyError
    (fun _ =>
       print_err "Couldn't find route description, continuing anyway";;
       mret None).

(** Lines 429-459: the GPX object and the output file. *)
Definition write_output (argv : list string) (route_description : option string)
    (routepoints : list (waypoint C)) : script C unit :=
  let g := Gpx (if Py.truthy route_description then route_description else None)
               routepoints in
  filename ← lift (argv_get argv 2);
  lift (open_w L filename);;
  write_gpx filename g.

Definition usage : string := "usage: cck_gpx.py in.html out.gpx".

Definition no_list_hint : string :=
  String "010" "Couldn't find route list (exactly one <ul> element), giving up."
  +:+ String "010" (String "010" "(Is this raw server HTML? You need to save it from a web browser, after")
  +:+ String "010" "it's executed the embedded Javascript to fetch the route data, in such"
  +:+ String "010" "a way that the browser saves the modified DOM."
  +:+ String "010" "In Firefox, " +:+ String "034" "Save Page As..."
  +:+ String "034" " then " +:+ String "034" "Web Page, complete" +:+ String "034" ".)"
  +:+ String "010" "".

(** What follows the loop: accounting, route description, output. *)
Definition after_loop (argv : list string) (main : node)
    (routepoints : list (waypoint C)) (ulistitems : list node) : script C unit :=
  post_loop routepoints ulistitems;;
  route_description ← route_metadata main;
  write_output argv route_description routepoints.

(** The script, run with [sys.argv = argv]. *)
Definition cck_gpx (argv : list string) : script C unit :=
  (if (length argv <? 2)%nat then
     print_err usage;;
     raise (SystemExit 2)
   else mret tt);;
  filename ← lift (argv_get argv 1);
  tree ← lift (html_parse L filename);
  main ← lift (unpack1 (Dom.xpath_anywhere "main" tree));
  ulist ← try_except (lift (unpack1 (Dom.xpath_descendant "ul" main)))
            is_ValueError
            (fun e => print_err no_list_hint;; raise e);
  let routepoints := [] in
  let ulistitems := Dom.xpath_child "li" ulist in
  (if (length ulistitems =? 0)%nat then
     print_err "Found list, but no route points in it!"
   else mret tt);;
  routepoints ← process_items 0 (length ulistitems) ulistitems routepoints;
  after_loop argv main routepoints ulistitems.

(** The exit status of the interpreter: that of [sys.exit], 1 after an
    exception nobody caught, 0 at the end of the script. *)
Definition exit_status {A} (r : outcome A) : nat :=
  match r with
  | Ret _ => 0
  | Raise (SystemExit n) => n
  | Raise _ => 1
  end.

(** A run from the world in which nothing was printed or written yet. *)
Definition run (argv : list string) : outcome unit * world C :=
  cck_gpx argv (World [] []).

End script_body.

(** ** A concrete library, to run the script

    [Lib] models the imported libraries on the inputs of the example pages
    below: lxml on the pattern expressions the script uses, urllib on URLs
    and escapes within the strings of this model, and the Open Location Code
    rules for valid, short and full codes.  Coordinates stay symbolic: the
    latitude and the longitude of a code's centre. *)

Module Lib.

(** The first text child of a node, as [text()] converted to a string. *)
Definition first_text (n : node) : string :=
  match List.find (fun k => match k with TextNode _ => true | _ => false end)
                  (Dom.child_nodes n) with
  | Some (TextNode s) => s
  | _ => EmptyString
  end.

(** [node.xpath('self::' + e)] for [e] a name test, one of the three
    predicates of the script's patterns, or a step from any element to its
    children of one name, written with an asterisk, a slash and the name. *)
Definition xpath_self (e : string) (n : node) : list node :=
  if bool_decide (e = "a[contains(text(),'Google Maps')]") then
    if Dom.has_tag "a" n && Py.contains "Google Maps" (first_text n) then [n] else []
  else if bool_decide (e = "a[contains(text(),'Call')]") then
    if Dom.has_tag "a" n && Py.contains "Call" (first_text n) then [n] else []
  else if bool_decide (e = "div[not(node())]") then
    if Dom.has_tag "div" n && bool_decide (Dom.child_nodes n = []) then [n] else []
  else if Py.startswith "*/" e then
    if Dom.iselement n then Dom.xpath_child (Py.drop 2 e) n else []
  else
    if Dom.has_tag e n then [n] else [].

Definition scheme_char (c : ascii) : bool :=
  let n := nat_of_ascii c in
  ascii_letter c || ((48 <=? n) && (n <=? 57))
  || (n =? 43) || (n =? 45) || (n =? 46).

(** [s] up to the first character satisfying [stop], and the rest. *)
Fixpoint break (stop : ascii -> bool) (s : string) : string * string :=
  match s with
  | EmptyString => (EmptyString, EmptyString)
  | String c s' =>
      if stop c then (EmptyString, s)
      else let '(a, b) := break stop s' in (String c a, b)
  end.

Fixpoint all_chars (p : ascii -> bool) (s : string) : bool :=
  match s with
  | EmptyString => true
  | String c s' => p c && all_chars p s'
  end.

Definition is_char (n : nat) (c : ascii) : bool := (nat_of_ascii c =? n)%nat.

Definition lower (c : ascii) : ascii :=
  let n := nat_of_ascii c in
  if (65 <=? n) && (n <=? 90) then ascii_of_nat (n + 32) else c.

Definition upper (c : ascii) : ascii :=
  let n := nat_of_ascii c in
  if (97 <=? n) && (n <=? 122) then ascii_of_nat (n - 32) else c.

Fixpoint map_chars (f : ascii -> ascii) (s : string) : string :=
  match s with
  | EmptyString => EmptyString
  | String c s' => String (f c) (map_chars f s')
  end.

(** What [urlsplit] strips from the front of a URL: the C0 controls and the
    space. *)
Fixpoint lstrip_c0 (s : string) : string :=
  match s with
  | String c s' => if (nat_of_ascii c <=? 32)%nat then lstrip_c0 s' else s
  | EmptyString => EmptyString
  end.

(** What [urlsplit] removes from everywhere in a URL: TAB, LF and CR. *)
Fixpoint remove_unsafe (s : string) : string :=
  match s with
  | String c s' =>
      if is_char 9 c || is_char 10 c || is_char 13 c then remove_unsafe s'
      else String c (remove_unsafe s')
  | EmptyString => EmptyString
  end.

Fixpoint has_char (n : nat) (s : string) : bool :=
  match s with
  | String c s' => is_char n c || has_char n s'
  | EmptyString => false
  end.

(** The schemes whose last path segment may carry parameters. *)
Definition uses_params : list string :=
  [ ""; "ftp"; "hdl"; "prospero"; "http"; "imap"; "https"; "shttp"; "rtsp";
    "rtspu"; "sip"; "sips"; "mms"; "sftp"; "tel" ].

(** The path without the parameters of its last segment: cut at the first
    semicolon after the last slash. *)
Fixpoint split_params (url : string) : string :=
  match url with
  | String c s' =>
      if has_char 47 s' then String c (split_params s')
      else fst (break (is_char 59) url)
  | EmptyString => EmptyString
  end.

(** [urlparse(url)]: leading controls and blanks are stripped and TAB, LF, CR
    removed; then come the scheme, the network location after two slashes,
    and the path up to the query or the fragment, without its parameters for
    the schemes that use them.  A network location with one bracket and not
    the other raises [ValueError]; one with a bracketed host is taken to be
    well formed, and one outside ASCII to pass the library's check.
    [urlparse(None)] is a result of [bytes], all empty: its scheme equals no
    [str], which the text of its representation stands for here. *)
Definition urlparse (url : option string) : outcome parse_result :=
  match url with
  | None => Ret (ParseResult "b''" EmptyString)
  | Some url =>
      let url := remove_unsafe (lstrip_c0 url) in
      let '(before, after) := break (is_char 58) url in
      let '(scheme, url) :=
        match before, after with
        | String c _, String _ rest =>
            if ascii_letter c && all_chars scheme_char before
            then (map_chars lower before, rest)
            else (EmptyString, url)
        | _, _ => (EmptyString, url)
        end in
      let '(netloc, url) :=
        if Py.startswith "//" url
        then break (fun c => is_char 47 c || is_char 63 c || is_char 35 c)
                   (Py.drop 2 url)
        else (EmptyString, url) in
      if xorb (has_char 91 netloc) (has_char 93 netloc) then
        Raise (ValueError "Invalid IPv6 URL")
      else
        let url := fst (break (fun c => is_char 63 c || is_char 35 c) url) in
        Ret (ParseResult scheme
               (if bool_decide (scheme ∈ uses_params) then split_params url else url))
  end.

Definition hex_value (c : ascii) : option nat :=
  let n := nat_of_ascii c in
  if (48 <=? n) && (n <=? 57) then Some (n - 48)
  else if (65 <=? n) && (n <=? 70) then Some (n - 55)
  else if (97 <=? n) && (n <=? 102) then Some (n - 87)
  else None.

(** The byte a percent sign and the two characters after it stand for. *)
Definition escaped_byte (s : string) : option (nat * string) :=
  match s with
  | String c (String h (String l rest)) =>
      if is_char 37 c then
        match hex_value h, hex_value l with
        | Some a, Some b => Some (16 * a + b, rest)
        | _, _ => None
        end
      else None
  | _ => None
  end.

(** [unquote(s)], by the characters of [s] still to read.  An escape below
    128 is its character; two escapes that are the UTF-8 form of a code point
    from 128 to 255 are that character; text after a percent sign that is no
    escape stays.  Escapes that decode to a code point above 255 or to the
    replacement character stay as they are: those characters are outside the
    strings of this model. *)
Fixpoint unquote_go (fuel : nat) (s : string) : string :=
  match fuel, s with
  | S fuel', String c s' =>
      match escaped_byte s with
      | Some (b1, rest) =>
          if (b1 <? 128)%nat then String (ascii_of_nat b1) (unquote_go fuel' rest)
          else
            match escaped_byte rest with
            | Some (b2, rest') =>
                if ((b1 =? 194) || (b1 =? 195)) && (128 <=? b2) && (b2 <=? 191)
                then String (ascii_of_nat ((b1 - 192) * 64 + (b2 - 128)))
                            (unquote_go fuel' rest')
                else String c (unquote_go fuel' s')
            | None => String c (unquote_go fuel' s')
            end
      | None => String c (unquote_go fuel' s')
      end
  | _, _ => s
  end.

Definition unquote (s : string) : string := unquote_go (String.length s) s.

(** Open Location Code: the twenty digits, the separator and the padding. *)
Definition code_alphabet : string := "23456789CFGHJMPQRVWX".

Fixpoint find_char (c : ascii) (s : string) : option nat :=
  match s with
  | EmptyString => None
  | String c' s' =>
      if bool_decide (c' = c) then Some 0 else S <$> find_char c s'
  end.

Fixpoint count_char (c : ascii) (s : string) : nat :=
  match s with
  | EmptyString => 0
  | String c' s' => (if bool_decide (c' = c) then 1 else 0) + count_char c s'
  end.

Definition separator : ascii := "+".
Definition padding : ascii := "0".

(** The padding characters of [s] form one group of even length. *)
Definition padding_well_formed (s : string) : bool :=
  match find_char padding s with
  | None => true
  | Some pad =>
      let n := count_char padding s in
      Nat.even n
      && Py.startswith (map_chars (fun _ => padding) (Py.drop (String.length s - n) s))
                       (Py.drop pad s)
  end.

Definition isValid (code : string) : bool :=
  match find_char separator code with
  | None => false
  | Some sep =>
      (count_char separator code =? 1)
      && negb (String.length code =? 1)
      && (sep <=? 8) && Nat.even sep
      && match find_char padding code with
         | None => true
         | Some pad =>
             (sep =? 8) && negb (pad =? 0)
             && padding_well_formed code
             && (String.length code =? 9)
         end
      && negb (String.length code - sep - 1 =? 1)
      && all_chars (fun ch => bool_decide (is_Some (find_char (upper ch) code_alphabet))
                              || bool_decide (ch = separator)
                              || bool_decide (ch = padding)) code
  end.

Definition isShort (code : string) : bool :=
  isValid code
  && match find_char separator code with
     | Some sep => sep <? 8
     | None => false
     end.

Definition isFull (code : string) : bool :=
  isValid code && negb (isShort code)
  && match code with
     | String c0 (String c1 _) =>
         match find_char (upper c0) code_alphabet, find_char (upper c1) code_alphabet with
         | Some lat, Some lng => (lat * 20 <? 180) && (lng * 20 <? 360)
         | _, _ => false
         end
     | _ => false
     end.

(** A coordinate of the centre of a code's area. *)
Inductive coord : Type :=
| LatitudeOf (code : string)
| LongitudeOf (code : string).

Definition decode_latlng (code : string) : coord * coord :=
  (LatitudeOf code, LongitudeOf code).

End Lib.

(** ** Example pages *)

Module Demo.

(** The libraries, with [html.parse] reading [page] from every file. *)
Definition lib (page : node) : extlib :=
  ExtLib Lib.xpath_self (fun _ => Ret page) Lib.urlparse Lib.unquote
         Lib.coord Lib.isValid Lib.isFull Lib.decode_latlng (fun _ => Ret tt).

Definition el (tag : string) (kids : list node) : node := Element tag [] kids.

Definition p (text : string) : node := el "p" [TextNode text].

Definition a (href text : string) : node :=
  Element "a" [("href", href)] [TextNode text].

Definition maps_url (place : string) : string :=
  "https://www.google.com/maps/place/" +:+ place.

(** The links block of a stop, without a 'Call' link. *)
Definition links (url : string) : node :=
  el "div" [ a url "Google Maps"; el "div" []; el "button" [TextNode "Done"] ].

(** The name block and the portions block of a stop. *)
Definition name_block (fullname code : string) : node :=
  el "div" [ p fullname; p code ].

Definition portions_block (portions : string) : node :=
  el "div" [ el "span" [TextNode "2"]; p portions ].

(** The only block of a list item of the shape the script expects, without
    the optional paragraph: the name, the code as text, the portions text
    and the map link's target are the arguments. *)
Definition stop_block (fullname code portions url : string) : node :=
  el "div"
    [ name_block fullname code;
      p "1 Example Street";
      portions_block portions;
      p "Leave at the door";
      p "None";
      links url ].

Definition stop (fullname code portions url : string) : node :=
  el "li" [ stop_block fullname code portions url ].

(** A page around a route list: the header, then the content block with
    the description block, the list and the way back. *)
Definition page_of (items : list node) : node :=
  el "html"
    [ el "body"
        [ el "main"
            [ el "div" [ TextNode "CCK Deliveries" ];
              el "div"
                [ el "div" [ el "div" [ TextNode "Deliveries for 04/09/2022 in Demo" ];
                             el "button" [ TextNode "Reset" ] ];
                  el "ul" items;
                  el "div" [ a "https://goo.gl/maps/xyz" "Back to the Lockon" ] ] ] ] ].

(** The same, but the content block holds the list alone. *)
Definition bare_page_of (items : list node) : node :=
  el "html"
    [ el "body"
        [ el "main"
            [ el "div" [ TextNode "CCK Deliveries" ];
              el "div" [ el "ul" items ] ] ] ].

Definition stop_ok : node :=
  stop "Alex" "8FVC2222+22" "portions" (maps_url "8FVC2222+22").

(** Scenario B: the code in the text and the code in the map link differ. *)
Definition stop_mismatch : node :=
  stop "Alex" "8FVC2222+22" "portions" (maps_url "8FVC9999+99").

(** A stop whose code is a valid short code. *)
Definition stop_short : node :=
  stop "Alex" "2222+22" "portions" (maps_url "2222+22").


(** A stop of the full shape whose portions block reads otherwise. *)
Definition stop_no_portion : node :=
  stop "Alex" "8FVC2222+22" "2 meals" (maps_url "8FVC2222+22").

(** A list item without content. *)
Definition empty_item : node := el "li" [].

(** A list item whose only child is followed by a rule. *)
Definition item_with_rule : node :=
  el "li" [ el "div" []; el "hr" [] ].

End Demo.

(** ** Predicates used in the statements *)

(** Every character of [s] is Python whitespace (so is the empty string). *)
Fixpoint all_isspace (s : string) : bool :=
  match s with
  | String c s' => Py.isspace c && all_isspace s'
  | EmptyString => true
  end.

(** [s] holds a line feed. *)
Fixpoint has_line_feed (s : string) : bool :=
  match s with
  | String c s' => (nat_of_ascii c =? 10)%nat || has_line_feed s'
  | EmptyString => false
  end.

(** The waypoint's coordinates are those of [code], a valid and full code. *)
Definition decoded_from (L : extlib) (code : string) (wp : waypoint (coord L)) : Prop :=
  olc_isValid L code = true
  ∧ olc_isFull L code = true
  ∧ (wp_lat wp, wp_lng wp) = olc_decode_latlng L code.

(** The children [match_tags] looks at are all elements. *)
Definition text_free (startnode : node) : Prop :=
  existsb (λ x, negb (Dom.iselement x)) (Dom.xpath_elements_and_text startnode) = false.

(** The [fields] of a strict extraction, once the map link is read: the
    seven texts, and the 'not home' text when its paragraph was there. *)
Definition fields_of (fullname placeid address portions insns allergies : string)
    (nothome : option string) (mapurl : option string)
    : gmap string (option string) :=
  <["mapurl" := mapurl]>
    (match nothome with
     | Some text => <["nothome" := Some text]>
     | None => λ fields, fields
     end
       (<["allergies" := Some allergies]>
          (<["instructions" := Some insns]>
             (<["portions" := Some portions]>
                (<["address" := Some address]>
                   (<["placeid" := Some placeid]>
                      (<["fullname" := Some fullname]> ∅))))))).


(** A list item with two map links and nothing else. *)
Definition item_two_links : node :=
  Demo.el "li"
    [ Demo.a (Demo.maps_url "8FVC2222+22") "Google Maps";
      Demo.a (Demo.maps_url "8FVC9999+99") "Google Maps" ].

(** The nodes the strict extraction reads from: the list item matches the
    one-slot pattern, its block the seven-slot pattern, the name block binds
    [fullname_p] and [olc_p], and the links block binds [maplink_a]. *)
Definition strict_sources (L : extlib) (listitem fullname_p olc_p maplink_a : node) : Prop :=
  ∃ l1 div1 l2 name_olc_div names links_div links,
    match_tags L listitem pattern_item = Ret (Some l1)
    ∧ l1 !! "div1" = Some div1
    ∧ match_tags L div1 pattern_stop = Ret (Some l2)
    ∧ l2 !! "name_olc_div" = Some name_olc_div
    ∧ match_tags L name_olc_div pattern_name_olc = Ret (Some names)
    ∧ names !! "fullname_p" = Some fullname_p
    ∧ names !! "olc_p" = Some olc_p
    ∧ l2 !! "links_div" = Some links_div
    ∧ match_tags L links_div pattern_links = Ret (Some links)
    ∧ links !! "maplink_a" = Some maplink_a.

(** The waypoint is the one the list item at position [index] gives: its
    coordinates are those of a valid full code, and either the strict
    extraction returned with the waypoint's name and that code, or it raised
    a caught exception, the item holds one map link, that link's place id is
    the code, and the name is the position's. *)
Definition emits (L : extlib) (index : nat) (listitem : node)
    (wp : waypoint (coord L)) : Prop :=
  ∃ code,
    decoded_from L code wp
    ∧ (strict_extract L listitem = Ret (wp_name wp, Some code)
       ∨ ∃ e maplink_a,
           strict_extract L listitem = Raise e
           ∧ is_Value_Key_TypeError e = true
           ∧ Dom.xpath_links_containing "google.com/maps" listitem = [maplink_a]
           ∧ place_id_from_google_maps_url L (Dom.get "href" maplink_a)
             = Ret (Some code)
           ∧ wp_name wp = Some ("Delivery no " +:+ Py.str_of_nat (index + 1))).

(** A stop of the full shape, except that its name block holds the name
    alone; its portions block does not say 'portion'. *)
Definition stop_name_alone : node :=
  Demo.el "li"
    [ Demo.el "div"
        [ Demo.el "div" [ Demo.p "Alex" ];
          Demo.p "1 Example Street";
          Demo.portions_block "2 meals";
          Demo.p "Leave at the door";
          Demo.p "None";
          Demo.links (Demo.maps_url "8FVC2222+22") ] ].

(** * Properties *)

(** ** Sequencing *)

Lemma bind_Ret {A B} (a : A) (k : A -> outcome B) : (Ret a ≫= k) = k a.
Proof. reflexivity. Qed.

Lemma bind_Raise {A B} (x : exn) (k : A -> outcome B) : (Raise x ≫= k) = Raise x.
Proof. reflexivity. Qed.

(** One step of a computation whose outcome [H] gives. *)
Ltac ostep H := rewrite H; rewrite bind_Ret; cbv beta zeta.

(** ** [match_tags] *)

Section match_tags_facts.

Context (L : extlib).

(** The loop succeeds exactly when there are at least as many nodes as
    slots and each slot selects one node at the node aligned with it. *)
Lemma match_tags_loop_Some_iff pattern nodelist result :
  (∃ d, match_tags_loop L pattern nodelist result = Ret (Some d))
  ↔ length pattern ≤ length nodelist
    ∧ Forall2 (matches_once L) pattern (take (length pattern) nodelist).
Proof.
  revert nodelist result.
  induction pattern as [|tagd pattern IH]; intros nodelist result; simpl.
  - split; [intros _; split; [lia | constructor] | eauto].
  - destruct nodelist as [|n nodelist]; simpl.
    + split; [intros [d Hd]; discriminate | intros [Hlen _]; lia].
    + destruct (xpath_self L (slot_e tagd) n) as [|m [|m' ms]] eqn:Hm; simpl.
      * split; [intros [d Hd]; discriminate |].
        intros [_ HF]. inversion HF as [|? ? ? ? H1 _]; subst.
        unfold matches_once in H1. rewrite Hm in H1. discriminate.
      * rewrite IH. split.
        -- intros [Hlen HF]. split; [lia |].
           constructor; [unfold matches_once; by rewrite Hm | done].
        -- intros [Hlen HF]. split; [lia |]. by inversion HF.
      * split; [intros [d Hd]; discriminate |].
        intros [_ HF]. inversion HF as [|? ? ? ? H1 _]; subst.
        unfold matches_once in H1. rewrite Hm in H1. discriminate.
Qed.

(** The loop looks at the first [length pattern] nodes only. *)
Lemma match_tags_loop_ignores_rest pattern nodelist extra result d :
  match_tags_loop L pattern nodelist result = Ret (Some d) →
  match_tags_loop L pattern (nodelist ++ extra) result = Ret (Some d).
Proof.
  revert nodelist result.
  induction pattern as [|tagd pattern IH]; intros nodelist result; simpl; [done |].
  destruct nodelist as [|n nodelist]; simpl; [done |].
  destruct (1 <? length (xpath_self L (slot_e tagd) n))%nat; [done |].
  destruct (xpath_self L (slot_e tagd) n); [done |]. apply IH.
Qed.

(** The loop raises [IndexError] when the nodes run out before the slots,
    every slot so far having selected one node. *)
Lemma match_tags_loop_short pattern nodelist result :
  length nodelist < length pattern →
  Forall2 (matches_once L) (take (length nodelist) pattern) nodelist →
  match_tags_loop L pattern nodelist result = Raise (IndexError "pop from empty list").
Proof.
  revert nodelist result.
  induction pattern as [|tagd pattern IH]; intros nodelist result; simpl; [lia |].
  destruct nodelist as [|n nodelist]; simpl; [done |].
  intros Hlen HF. inversion HF as [|? ? ? ? H1 H2]; subst.
  unfold matches_once in H1.
  destruct (xpath_self L (slot_e tagd) n) as [|m [|m' ms]]; simplify_eq/=.
  apply IH; [lia | done].
Qed.

(** The loop raises in two ways only: a slot selects several nodes at its
    node, or the nodes run out before the slots. *)
Lemma match_tags_loop_Raise pattern nodelist result x :
  match_tags_loop L pattern nodelist result = Raise x →
  (x = IndexError "pop from empty list" ∧ length nodelist < length pattern)
  ∨ (∃ tagd n, tagd ∈ pattern ∧ n ∈ nodelist
               ∧ 1 < length (xpath_self L (slot_e tagd) n)
               ∧ x = ValueError ("Pattern '" +:+ slot_e tagd +:+ "' returned >1 match")).
Proof.
  revert nodelist result.
  induction pattern as [|tagd pattern IH]; intros nodelist result; simpl; [done |].
  destruct nodelist as [|n nodelist]; simpl.
  - intros [= <-]. left. split; [done | lia].
  - destruct (1 <? length (xpath_self L (slot_e tagd) n))%nat eqn:Hm.
    + intros [= <-]. right. exists tagd, n.
      apply Nat.ltb_lt in Hm. repeat split; [set_solver.. | done].
    + destruct (xpath_self L (slot_e tagd) n); [done |].
      intros Hr. apply IH in Hr as [[-> Hlen] | (tagd' & n' & ? & ? & ? & ->)].
      * left. split; [done | lia].
      * right. exists tagd', n'. repeat split; [set_solver.. | done].
Qed.

(** Whatever the loop binds is kept, and every slot with a name binds. *)
Lemma match_tags_loop_binds pattern nodelist result d :
  match_tags_loop L pattern nodelist result = Ret (Some d) →
  (∀ k, is_Some (result !! k) → is_Some (d !! k))
  ∧ (∀ tagd name, tagd ∈ pattern → slot_bind tagd = Some name → is_Some (d !! name)).
Proof.
  revert nodelist result.
  induction pattern as [|tagd pattern IH]; intros nodelist result; simpl.
  - intros [= <-]. split; [done |]. intros tagd name Hin. by apply elem_of_nil in Hin.
  - destruct nodelist as [|n nodelist]; [done |].
    destruct (1 <? length (xpath_self L (slot_e tagd) n))%nat; [done |].
    destruct (xpath_self L (slot_e tagd) n) as [|m ms]; [done |].
    intros Hd. apply IH in Hd as [Hkeep Hbind]. split.
    + intros k Hk. apply Hkeep.
      destruct (slot_bind tagd) as [name|]; [|done].
      destruct (decide (name = k)) as [->|Hne];
        [rewrite lookup_insert_eq; eauto | by rewrite lookup_insert_ne].
    + intros tagd' name Hin Hname.
      apply elem_of_cons in Hin as [->|Hin]; [|by eapply Hbind].
      apply Hkeep. rewrite Hname. rewrite lookup_insert_eq; eauto.
Qed.

(** A match binds the name of every slot that is not optional. *)
Lemma match_tags_binds startnode pattern d tagd name :
  match_tags L startnode pattern = Ret (Some d) →
  tagd ∈ pattern → slot_opt tagd = false → slot_bind tagd = Some name →
  is_Some (d !! name).
Proof.
  unfold match_tags. intros Hm Hin Hopt Hname.
  assert (tagd ∈ List.filter (λ tagd, negb (slot_opt tagd)) pattern) as Hin'.
  { apply list_elem_of_In, filter_In. split; [by apply list_elem_of_In |]. by rewrite Hopt. }
  repeat match type of Hm with
         | (if ?b then _ else _) = _ => destruct b; try discriminate
         end;
    apply match_tags_loop_binds in Hm as [_ Hbind]; eauto.
Qed.

End match_tags_facts.

Section match_tags_claims.

Context (L : extlib).

(** X8. With one optional slot the lengths are compared before the loop: the
    match succeeds exactly when the slots kept by the counting rule are as
    many as the children and each selects one node at its child. *)
Lemma match_tags_one_optional_iff startnode pattern :
  existsb (λ x, negb (Dom.iselement x)) (Dom.xpath_elements_and_text startnode) = false →
  length pattern - length (List.filter (λ tagd, negb (slot_opt tagd)) pattern) = 1 →
  (∃ d, match_tags L startnode pattern = Ret (Some d))
  ↔ ∃ kept,
      (kept = pattern
       ∨ kept = List.filter (λ tagd, negb (slot_opt tagd)) pattern)
      ∧ length kept = length (Dom.xpath_elements_and_text startnode)
      ∧ Forall2 (matches_once L) kept (Dom.xpath_elements_and_text startnode).
Proof.
  intros Htext Hopt. unfold match_tags. rewrite Htext, Hopt. simpl.
  set (nodelist := Dom.xpath_elements_and_text startnode).
  set (mandatory := List.filter (λ tagd, negb (slot_opt tagd)) pattern) in *.
  destruct (length pattern =? length nodelist + 1)%nat eqn:H1.
  - apply Nat.eqb_eq in H1. rewrite match_tags_loop_Some_iff.
    assert (length mandatory = length nodelist) as Hlen by lia.
    rewrite Hlen, firstn_all. split.
    + intros [_ HF]. exists mandatory. eauto.
    + intros (kept & [-> | ->] & Hk & HF); [lia |]. split; [lia | done].
  - apply Nat.eqb_neq in H1.
    destruct (length pattern =? length nodelist)%nat eqn:H2; simpl.
    + apply Nat.eqb_eq in H2. rewrite match_tags_loop_Some_iff.
      rewrite H2, firstn_all. split.
      * intros [_ HF]. exists pattern. eauto.
      * intros (kept & [-> | ->] & Hk & HF); [done | lia].
    + apply Nat.eqb_neq in H2. split; [intros [d Hd]; discriminate |].
      intros (kept & [-> | ->] & Hk & HF); lia.
Qed.

(** X9. Without an optional slot the lengths are not compared: the match
    succeeds exactly when the children are at least as many as the slots and
    each slot selects one node at its child; further children are ignored. *)
Lemma match_tags_no_optional_iff startnode pattern :
  existsb (λ x, negb (Dom.iselement x)) (Dom.xpath_elements_and_text startnode) = false →
  length pattern - length (List.filter (λ tagd, negb (slot_opt tagd)) pattern) = 0 →
  (∃ d, match_tags L startnode pattern = Ret (Some d))
  ↔ length pattern ≤ length (Dom.xpath_elements_and_text startnode)
    ∧ Forall2 (matches_once L) pattern
        (take (length pattern) (Dom.xpath_elements_and_text startnode)).
Proof.
  intros Htext Hopt. unfold match_tags. rewrite Htext, Hopt. simpl.
  apply match_tags_loop_Some_iff.
Qed.

(** With pattern expressions that evaluate to lists of nodes, [match_tags]
    raises in three ways only.  The third, the [IndexError] of a parent with
    fewer children than slots, needs a pattern without optional slot: with
    one optional slot the lengths were compared. *)
Lemma match_tags_Raise startnode pattern x :
  match_tags L startnode pattern = Raise x →
  (x = ValueError ">1 optional element in pattern"
   ∧ 1 < length (List.filter slot_opt pattern))
  ∨ (∃ tagd n, tagd ∈ pattern ∧ n ∈ Dom.xpath_elements_and_text startnode
               ∧ 1 < length (xpath_self L (slot_e tagd) n)
               ∧ x = ValueError ("Pattern '" +:+ slot_e tagd +:+ "' returned >1 match"))
  ∨ (x = IndexError "pop from empty list"
     ∧ List.filter slot_opt pattern = []
     ∧ length (Dom.xpath_elements_and_text startnode) < length pattern).
Proof.
  unfold match_tags.
  set (nodelist := Dom.xpath_elements_and_text startnode).
  set (mandatory := List.filter (λ tagd, negb (slot_opt tagd)) pattern).
  assert (length pattern = length (List.filter slot_opt pattern) + length mandatory)
    as Hsplit.
  { subst mandatory. clear. induction pattern as [|t pattern IH]; [done |].
    simpl. destruct (slot_opt t); simpl; lia. }
  assert (∀ tagd, tagd ∈ mandatory → tagd ∈ pattern) as Hsub.
  { intros tagd Hin. apply list_elem_of_In in Hin. apply filter_In in Hin as [Hin _].
    by apply list_elem_of_In. }
  destruct (existsb _ nodelist); [done |].
  destruct (1 <? length pattern - length mandatory)%nat eqn:Hmany.
  { intros [= <-]. left. apply Nat.ltb_lt in Hmany. split; [done | lia]. }
  apply Nat.ltb_ge in Hmany.
  destruct (length pattern - length mandatory =? 1)%nat eqn:Hone.
  - apply Nat.eqb_eq in Hone.
    destruct (length pattern =? length nodelist + 1)%nat eqn:H1.
    + apply Nat.eqb_eq in H1. intros Hr.
      apply match_tags_loop_Raise in Hr as [[_ Hlen] | (tagd & n & ? & ? & ? & ->)];
        [lia |].
      right. left. exists tagd, n. eauto.
    + destruct (length pattern =? length nodelist)%nat eqn:H2; simpl; [|done].
      apply Nat.eqb_eq in H2. intros Hr.
      apply match_tags_loop_Raise in Hr as [[_ Hlen] | (tagd & n & ? & ? & ? & ->)];
        [lia |].
      right. left. exists tagd, n. eauto.
  - apply Nat.eqb_neq in Hone. intros Hr.
    apply match_tags_loop_Raise in Hr as [[-> Hlen] | (tagd & n & ? & ? & ? & ->)].
    + right. right. split; [done |]. split; [|done].
      apply length_zero_iff_nil. lia.
    + right. left. exists tagd, n. eauto.
Qed.

(** C6. A parent with a non-blank text child never matches: [match_tags]
    returns [None] there, whatever the parent's elements and whatever the
    pattern (even one with several optional slots). *)
Theorem match_tags_text_child (startnode : node) (pattern : list slot) (text : string) :
  TextNode text ∈ Dom.child_nodes startnode →
  Dom.blank text = false →
  match_tags L startnode pattern = Ret None.
Proof.
  intros Hin Hblank. unfold match_tags.
  assert (existsb (λ x, negb (Dom.iselement x))
            (Dom.xpath_elements_and_text startnode) = true) as ->; [|done].
  apply existsb_exists. exists (TextNode text). split; [|done].
  apply filter_In. split; [by apply list_elem_of_In |].
  simpl. by rewrite Hblank.
Qed.

(** C2. A list item without children, matched against the one-slot pattern
    of the script (no optional slot, and no child for a selector to match
    twice), makes [match_tags] raise [IndexError] instead of returning
    [None]. *)
Theorem match_tags_too_few_children_raises :
  match_tags L Demo.empty_item pattern_item = Raise (IndexError "pop from empty list")
  ∧ List.filter slot_opt pattern_item = []
  ∧ Dom.xpath_elements_and_text Demo.empty_item = [].
Proof. done. Qed.

End match_tags_claims.

(** C1. A parent with two element children and no text, matched against the
    one-slot pattern of the script: the child count (2) differs from the
    slot count (1), and still the match succeeds, binding the first child
    and ignoring the second. *)
Theorem match_tags_extra_children_match :
  match_tags (Demo.lib (Demo.el "html" [])) Demo.item_with_rule pattern_item
  = Ret (Some {[ "div1" := Demo.el "div" [] ]})
  ∧ length (Dom.xpath_elements_and_text Demo.item_with_rule) = 2
  ∧ length pattern_item = 1
  ∧ List.filter slot_opt pattern_item = []
  ∧ existsb (λ x, negb (Dom.iselement x))
      (Dom.xpath_elements_and_text Demo.item_with_rule) = false.
Proof. by vm_compute. Qed.

(** C6 at a list item that holds a sentence next to its block. *)
Lemma match_tags_text_child_witness :
  match_tags (Demo.lib (Demo.el "html" []))
    (Demo.el "li" [Demo.el "div" []; TextNode "Ring twice"]) pattern_item
  = Ret None.
Proof.
  apply (match_tags_text_child (Demo.lib (Demo.el "html" []))
           (Demo.el "li" [Demo.el "div" []; TextNode "Ring twice"])
           pattern_item "Ring twice").
  - simpl. repeat constructor.
  - reflexivity.
Defined.

(** ** [str.split] and [firstnameish] *)

Lemma split_begins_word s : Py.begins_word s = true → Py.split s ≠ [].
Proof.
  destruct s as [|c s]; simpl; [done |].
  intros Hc. apply negb_true_iff in Hc. rewrite Hc.
  destruct (Py.begins_word s); [by destruct (Py.split s) | done].
Qed.

(** The words of [s.split()] are words. *)
Lemma split_words s : Forall (λ w, Py.is_word w = true) (Py.split s).
Proof.
  induction s as [|c s IH]; simpl; [constructor |].
  destruct (Py.isspace c) eqn:Hc; [done |].
  destruct (Py.begins_word s) eqn:Hs.
  - pose proof (split_begins_word s Hs) as Hne.
    destruct (Py.split s) as [|w ws]; [done |].
    inversion IH as [|? ? Hw Hws]; subst. constructor; [|done].
    simpl. rewrite Hc. simpl. by destruct w.
  - constructor; [|done]. simpl. by rewrite Hc.
Qed.

Lemma split_nonempty s w : w ∈ Py.split s → w ≠ "".
Proof.
  intros Hin. pose proof (split_words s) as HF.
  rewrite Forall_forall in HF. apply HF in Hin. by destruct w.
Qed.

(** A word splits into itself. *)
Lemma split_word w : Py.is_word w = true → Py.split w = [w].
Proof.
  induction w as [|c w IH]; [done |]. simpl.
  intros Hw. apply andb_true_iff in Hw as [Hc Hw].
  apply negb_true_iff in Hc. rewrite Hc.
  destruct w as [|c' w]; [done |].
  assert (Py.begins_word (String c' w) = true) as ->.
  { simpl in *. by apply andb_true_iff in Hw as [-> _]. }
  by rewrite IH.
Qed.

(** Splitting goes through a whitespace character. *)
Lemma split_app_space a c b :
  Py.isspace c = true →
  Py.split (a +:+ String c b) = Py.split a ++ Py.split b.
Proof.
  intros Hc. induction a as [|x a IH]; simpl; [by rewrite Hc |].
  rewrite IH.
  assert (Py.begins_word (a +:+ String c b) = Py.begins_word a) as ->.
  { destruct a; simpl; [by rewrite Hc | done]. }
  destruct (Py.isspace x); [done |].
  destruct (Py.begins_word a) eqn:Ha; [|done].
  pose proof (split_begins_word a Ha).
  by destruct (Py.split a).
Qed.

Lemma split_two_words a b :
  Py.is_word a = true → Py.is_word b = true →
  Py.split (a +:+ " " +:+ b) = [a; b].
Proof.
  intros Ha Hb. change (a +:+ " " +:+ b) with (a +:+ String " " b).
  rewrite (split_app_space a " " b); [|done].
  by rewrite (split_word a), (split_word b).
Qed.

(** The first character of a word and a period make a word. *)
Lemma abbreviation_word w : Py.is_word w = true → Py.is_word (first_char w +:+ ".") = true.
Proof.
  destruct w as [|c w]; [done |]. simpl.
  intros Hw. apply andb_true_iff in Hw as [-> _]. done.
Qed.

(** [firstnameish] in closed form, by the words of the full name. *)
Lemma firstnameish_closed_form fullname :
  firstnameish fullname =
  match Py.split fullname with
  | [] => None
  | [name] => Some name
  | name0 :: name1 :: rest =>
      Some (if negb (re_match_initial name0) then name0
            else
              match rest with
              | [] => name0 +:+ " " +:+ first_char name1 +:+ "."
              | _ => name0 +:+ " " +:+ name1
              end)
  end.
Proof.
  unfold firstnameish.
  destruct (Py.split fullname) as [|name0 [|name1 rest]]; [done.. |].
  simpl. destruct (re_match_initial name0); simpl; [|done].
  destruct rest; simpl; [done |]. by destruct (re_match_initial name1).
Qed.

(** C8, amended.  A full name of one word is returned as it is, so that
    deriving the name again changes nothing.  Otherwise the first word is
    taken; if it is an initial, the second word follows it, in full when
    more words come after it and cut down to its first character and a
    period when it is the last one.  The result has at most two words.
    'A B Smith' gives 'A B', 'Alex' gives 'Alex', and 'F. Bloggs Smith' gives
    'F. Bloggs': the period of the initial is kept. *)
Theorem firstnameish_rule (fullname : string) :
  (Py.is_word fullname = true →
     firstnameish fullname = Some fullname
     ∧ (firstnameish fullname ≫= firstnameish) = firstnameish fullname)
  ∧ firstnameish fullname =
      match Py.split fullname with
      | [] => None
      | [name] => Some name
      | name0 :: name1 :: rest =>
          Some (if negb (re_match_initial name0) then name0
                else
                  match rest with
                  | [] => name0 +:+ " " +:+ first_char name1 +:+ "."
                  | _ => name0 +:+ " " +:+ name1
                  end)
      end
  ∧ (∀ out, firstnameish fullname = Some out → length (Py.split out) ≤ 2)
  ∧ firstnameish "A B Smith" = Some "A B"
  ∧ firstnameish "Alex" = Some "Alex"
  ∧ firstnameish "F. Bloggs Smith" = Some "F. Bloggs".
Proof.
  split; [|split; [|split; [|done]]].
  - intros Hw.
    assert (firstnameish fullname = Some fullname) as Hone.
    { rewrite firstnameish_closed_form. by rewrite split_word. }
    split; [done |]. rewrite Hone. simpl. exact Hone.
  - apply firstnameish_closed_form.
  - intros out. rewrite firstnameish_closed_form.
    pose proof (split_words fullname) as HF.
    destruct (Py.split fullname) as [|name0 [|name1 rest]]; [done | |].
    + intros [= <-]. inversion HF as [|? ? Hw _]; subst.
      rewrite split_word; [simpl; lia | done].
    + inversion HF as [|? ? Hw0 HF']; subst.
      inversion HF' as [|? ? Hw1 _]; subst.
      intros [= <-].
      destruct (re_match_initial name0); simpl.
      * destruct rest.
        -- rewrite split_two_words; [simpl; lia | done | by apply abbreviation_word].
        -- rewrite split_two_words; [simpl; lia | done..].
      * rewrite split_word; [simpl; lia | done].
Qed.

(** C8 at the one-word name 'Alex', and the bound at 'F Bloggs', whose
    result 'F B.' has two words. *)
Lemma firstnameish_rule_witness :
  Py.is_word "Alex" = true
  ∧ (firstnameish "Alex" = Some "Alex"
     ∧ (firstnameish "Alex" ≫= firstnameish) = firstnameish "Alex")
  ∧ firstnameish "F Bloggs" = Some "F B."
  ∧ length (Py.split "F B.") ≤ 2.
Proof.
  split; [reflexivity |]. split; [|split].
  - apply (proj1 (firstnameish_rule "Alex")). reflexivity.
  - reflexivity.
  - apply (proj1 (proj2 (proj2 (firstnameish_rule "F Bloggs"))) "F B.").
    reflexivity.
Defined.

(** C8 as the specification states it fails at 'F. Bloggs Smith': the result is not
    'F Bloggs'. *)
Lemma firstnameish_keeps_period :
  firstnameish "F. Bloggs Smith" ≠ Some "F Bloggs".
Proof. by vm_compute. Qed.

(** ** The loop over the list items *)

Section item_facts.

Context (L : extlib).

Lemma script_bind_unfold {A B} (m : script (coord L) A) (k : A → script (coord L) B) w :
  (m ≫= k) w
  = match m w with
    | (Ret a, w') => k a w'
    | (Raise x, w') => (Raise x, w')
    end.
Proof. reflexivity. Qed.

(** A strict extraction that returns is used as it is. *)
Lemma process_item_strict index total listitem rps w ptname placeid :
  strict_extract L listitem = Ret (ptname, placeid) →
  process_item L index total listitem rps w = convert L index ptname placeid rps w.
Proof.
  intros Hs. unfold process_item. rewrite script_bind_unfold.
  unfold try_except, lift. by rewrite Hs.
Qed.

(** A strict extraction that raises one of the three exceptions of the
    [except] clause hands the item to the fallback. *)
Lemma process_item_fallback index total listitem rps w e :
  strict_extract L listitem = Raise e →
  is_Value_Key_TypeError e = true →
  process_item L index total listitem rps w
  = ('(ptname, placeid) ← fallback L index total listitem e;
     convert L index ptname placeid rps) w.
Proof.
  intros Hs He. unfold process_item. rewrite !script_bind_unfold.
  unfold try_except, lift. by rewrite Hs, He.
Qed.

(** Any other exception leaves the loop, and nothing is printed. *)
Lemma process_item_escapes index total listitem rps w e :
  strict_extract L listitem = Raise e →
  is_Value_Key_TypeError e = false →
  process_item L index total listitem rps w = (Raise e, w).
Proof.
  intros Hs He. unfold process_item. rewrite script_bind_unfold.
  unfold try_except, lift. by rewrite Hs, He.
Qed.

(** X12. The fallback prints the exception and the item's position first; when it
    returns, the stop is named by its position. *)
Lemma fallback_prints_and_names index total listitem e w :
  ∃ r more,
    fallback L index total listitem e w
    = (r, World (stderr w
                 ++ [ str_of_exn e;
                      "Failed to fully understand route point "
                      +:+ Py.str_of_nat (index + 1) +:+ " (of "
                      +:+ Py.str_of_nat total +:+ "), falling back to URL-only" ]
                 ++ more) (files w))
    ∧ ∀ ptname placeid, r = Ret (ptname, placeid) →
        ptname = Some ("Delivery no " +:+ Py.str_of_nat (index + 1)).
Proof.
  unfold fallback, try_except, lift, print_err.
  set (scan := unpack1 (Dom.xpath_links_containing "google.com/maps" listitem)
               ≫= λ maplink_a, place_id_from_google_maps_url L (Dom.get "href" maplink_a)).
  unfold mbind, script_bind, sbind, mret, script_ret, sret. simpl.
  destruct scan as [placeid | x]; simpl.
  - eexists _, []. rewrite <- !app_assoc. split; [done | by intros ? ? [= <- _]].
  - destruct (is_ValueError x); simpl.
    + eexists _, [_]. rewrite <- !app_assoc. split; [done | by intros ? ? [= <- _]].
    + eexists _, []. rewrite <- !app_assoc. split; [done | done].
Qed.

(** C7. A list item without children is a shape mismatch at the first
    step, and yet there is no diagnostic and no fallback: the strict
    extraction raises [IndexError], which the [except] clause of the loop
    does not name, and the whole run ends on it. *)
Theorem empty_item_escapes_fallback (index total : nat)
    (rps : list (waypoint (coord L))) (w : world (coord L)) :
  strict_extract L Demo.empty_item = Raise (IndexError "pop from empty list")
  ∧ process_item L index total Demo.empty_item rps w
    = (Raise (IndexError "pop from empty list"), w)
  ∧ run (Demo.lib (Demo.page_of [Demo.empty_item])) ["cck_gpx.py"; "in.html"; "out.gpx"]
    = (Raise (IndexError "pop from empty list"), World [] []).
Proof.
  split; [done |]. split; [|by vm_compute].
  by apply process_item_escapes.
Qed.

End item_facts.

(** Scenario B: the code in the text and the code in the map link differ.
    The diagnostic cites both, the item's position follows, and the stop is
    named by its position, with the place id of the link. *)
Lemma scenario_B :
  process_item (Demo.lib (Demo.el "html" [])) 0 1 Demo.stop_mismatch [] (World [] [])
  = (Ret [ Waypoint (Some "Delivery no 1")
             (Lib.LatitudeOf "8FVC9999+99") (Lib.LongitudeOf "8FVC9999+99") ],
     World [ "Thought '8FVC2222+22' was the plus code, but it doesn't match the map URL ('8FVC9999+99'); assuming lost";
             "Failed to fully understand route point 1 (of 1), falling back to URL-only" ]
           []).
Proof. by vm_compute. Qed.

Section strict_path.

Context (L : extlib).

Lemma subscript_Some {V} (d : gmap string V) k v :
  d !! k = Some v → subscript (Some d) k = Ret v.
Proof. intros H. unfold subscript. by rewrite H. Qed.

(** The portions block must say 'portion'.  When the item, its only
    block and the name block all match their patterns and the text of the
    matched portions block lacks 'portion', the strict extraction raises
    [ValueError], whatever the rest of the item looks like, and the item is
    processed by the fallback. *)
Theorem portions_check_falls_back (index total : nat) (listitem : node)
    (rps : list (waypoint (coord L))) (w : world (coord L))
    (l1 l2 l3 : gmap string node) (div1 name_olc_div portions_div : node) :
  match_tags L listitem pattern_item = Ret (Some l1) →
  l1 !! "div1" = Some div1 →
  match_tags L div1 pattern_stop = Ret (Some l2) →
  l2 !! "name_olc_div" = Some name_olc_div →
  match_tags L name_olc_div pattern_name_olc = Ret (Some l3) →
  l2 !! "portions_div" = Some portions_div →
  Py.contains "portion" (Dom.text_content portions_div) = false →
  let e := ValueError ("Didn't find 'portion' where expected (found '"
                       +:+ Dom.text_content portions_div +:+ "'); assuming lost") in
  strict_extract L listitem = Raise e
  ∧ process_item L index total listitem rps w
    = ('(ptname, placeid) ← fallback L index total listitem e;
       convert L index ptname placeid rps) w.
Proof.
  intros H1 Hdiv1 H2 Hname H3 Hportions Hlacks e.
  assert (strict_extract L listitem = Raise e) as Hstrict.
  { unfold strict_extract, strict_fields.
    destruct (match_tags_binds L _ _ _ (Slot "p" (Some "fullname_p") false)
                "fullname_p" H3) as [fullname_p Hf]; [set_solver | done.. |].
    destruct (match_tags_binds L _ _ _ (Slot "p" (Some "olc_p") false)
                "olc_p" H3) as [olc_p Ho]; [set_solver | done.. |].
    destruct (match_tags_binds L _ _ _ (Slot "p" (Some "addr_p") false)
                "addr_p" H2) as [addr_p Ha]; [set_solver | done.. |].
    ostep H1. ostep (subscript_Some _ _ _ Hdiv1).
    ostep H2. ostep (subscript_Some _ _ _ Hname).
    ostep H3. ostep (subscript_Some _ _ _ Hf). ostep (subscript_Some _ _ _ Ho).
    ostep (subscript_Some _ _ _ Ha). ostep (subscript_Some _ _ _ Hportions).
    by rewrite Hlacks. }
  split; [done |]. by apply process_item_fallback.
Qed.

End strict_path.

(** The same at a stop of the full shape whose portions block reads
    '2 meals' after the count. *)
Lemma portions_check_falls_back_witness :
  strict_extract (Demo.lib (Demo.el "html" [])) Demo.stop_no_portion
  = Raise (ValueError "Didn't find 'portion' where expected (found '22 meals'); assuming lost")
  ∧ process_item (Demo.lib (Demo.el "html" [])) 0 1 Demo.stop_no_portion [] (World [] [])
    = ('(ptname, placeid) ←
         fallback (Demo.lib (Demo.el "html" [])) 0 1 Demo.stop_no_portion
           (ValueError "Didn't find 'portion' where expected (found '22 meals'); assuming lost");
       convert (Demo.lib (Demo.el "html" [])) 0 ptname placeid []) (World [] []).
Proof.
  apply (portions_check_falls_back (Demo.lib (Demo.el "html" [])) 0 1
           Demo.stop_no_portion [] (World [] [])
           {[ "div1" := Demo.stop_block "Alex" "8FVC2222+22" "2 meals"
                          (Demo.maps_url "8FVC2222+22") ]}
           (list_to_map
              [ ("name_olc_div", Demo.name_block "Alex" "8FVC2222+22");
                ("addr_p", Demo.p "1 Example Street");
                ("portions_div", Demo.portions_block "2 meals");
                ("insns_p", Demo.p "Leave at the door");
                ("allergies_p", Demo.p "None");
                ("links_div", Demo.links (Demo.maps_url "8FVC2222+22")) ])
           (list_to_map
              [ ("fullname_p", Demo.p "Alex"); ("olc_p", Demo.p "8FVC2222+22") ])
           (Demo.stop_block "Alex" "8FVC2222+22" "2 meals" (Demo.maps_url "8FVC2222+22"))
           (Demo.name_block "Alex" "8FVC2222+22")
           (Demo.portions_block "2 meals"));
    vm_compute; reflexivity.
Defined.

Section place_id_checks.

Context (L : extlib).


End place_id_checks.



(** ** After the loop *)

Section after_the_loop.

Context (L : extlib).

(** The description block is missing when the content block does not match
    its pattern: [match_tags] returns [None], subscripting [None] raises
    [TypeError], and the [except] clause names [ValueError] and [KeyError]
    only. *)
Lemma route_metadata_no_match main l1div1 l1div2 w :
  Dom.xpath_child "div" main = [l1div1; l1div2] →
  match_tags L l1div2 pattern_content = Ret None →
  route_metadata L main w
  = (Raise (TypeError "'NoneType' object is not subscriptable"), w).
Proof.
  intros Hdivs Hmatch. unfold route_metadata, try_except, lift.
  rewrite Hdivs. simpl. by rewrite Hmatch.
Qed.

(** X27. A wrong number of blocks under [main] is caught: no description,
    and the one line of the description step is printed. *)
Lemma route_metadata_wrong_count main w :
  length (Dom.xpath_child "div" main) ≠ 2 →
  route_metadata L main w
  = (Ret None,
     World (stderr w ++ ["Couldn't find route description, continuing anyway"])
           (files w)).
Proof.
  intros Hlen. unfold route_metadata, try_except, lift.
  destruct (Dom.xpath_child "div" main) as [|d1 [|d2 [|d3 ds]]]; simpl in *;
    try done; unfold unpack_error; simpl; done.
Qed.

(** The accounting after the loop, in full. *)
Lemma post_loop_unfold rps items w :
  post_loop L rps items w
  = (if (length rps =? 0)%nat then Raise (SystemExit 1) else Ret tt,
     World (stderr w
            ++ (if (length rps =? length items)%nat then []
                else [ "Route incomplete - only understood "
                       +:+ Py.str_of_nat (length rps) +:+ " out of "
                       +:+ Py.str_of_nat (length items) +:+ " points!" ])
            ++ (if (length rps =? 0)%nat
                then ["No route points to emit, giving up."] else []))
           (files w)).
Proof.
  unfold post_loop, print_err, raise.
  unfold mbind, script_bind, sbind, mret, script_ret, sret.
  destruct (length rps =? length items)%nat, (length rps =? 0)%nat; simpl;
    rewrite ?app_nil_r, <- ?app_assoc; try done.
  by destruct w.
Qed.

(** X30. After the loop: fewer waypoints than items print the 'Route
    incomplete' diagnostic; no waypoint at all prints 'No route points to
    emit' and exits with status 1, nothing being written; with at least one
    waypoint the script goes on to the route description and the output file,
    which is written with these waypoints when the description step returns
    and the file named by the second argument can be opened.  A route list
    without items prints 'Found list, but no route points in it!' as well and
    exits with status 1. *)
Theorem post_loop_accounting (argv : list string) (main : node)
    (rps : list (waypoint (coord L))) (items : list node) (w : world (coord L)) :
  (length rps < length items →
     "Route incomplete - only understood " +:+ Py.str_of_nat (length rps)
       +:+ " out of " +:+ Py.str_of_nat (length items) +:+ " points!"
     ∈ stderr (snd (post_loop L rps items w)))
  ∧ (rps = [] →
       ∃ w', after_loop L argv main rps items w = (Raise (SystemExit 1), w')
             ∧ exit_status (fst (after_loop L argv main rps items w)) = 1
             ∧ last (stderr w') = Some "No route points to emit, giving up."
             ∧ files w' = files w)
  ∧ (rps ≠ [] →
       ∃ w', post_loop L rps items w = (Ret tt, w')
             ∧ after_loop L argv main rps items w
               = (route_description ← route_metadata L main;
                  write_output L argv route_description rps) w'
             ∧ ∀ route_description w'' filename,
                 route_metadata L main w' = (Ret route_description, w'') →
                 argv !! 2 = Some filename →
                 open_w L filename = Ret tt →
                 after_loop L argv main rps items w
                 = (Ret tt,
                    World (stderr w'')
                      (files w''
                       ++ [ (filename,
                             Gpx (if Py.truthy route_description
                                  then route_description else None) rps) ])))
  ∧ (∀ program filename more tree ulist,
       argv = program :: filename :: more →
       html_parse L filename = Ret tree →
       Dom.xpath_anywhere "main" tree = [main] →
       Dom.xpath_descendant "ul" main = [ulist] →
       Dom.xpath_child "li" ulist = [] →
       run L argv
       = (Raise (SystemExit 1),
          World [ "Found list, but no route points in it!";
                  "No route points to emit, giving up." ] [])).
Proof.
  split; [|split; [|split]].
  - intros Hlt. rewrite post_loop_unfold. simpl.
    assert ((length rps =? length items)%nat = false) as ->
      by (apply Nat.eqb_neq; lia).
    set_solver.
  - intros ->. unfold after_loop. rewrite script_bind_unfold, post_loop_unfold.
    simpl. eexists. split; [done |]. split; [done |]. split; [|done].
    rewrite app_assoc. apply last_snoc.
  - intros Hne. unfold after_loop. rewrite script_bind_unfold, post_loop_unfold.
    assert ((length rps =? 0)%nat = false) as ->
      by (destruct rps; [done | by apply Nat.eqb_neq]).
    eexists. split; [done |]. split; [done |].
    intros route_description w'' filename Hmeta Hargv Hopen.
    rewrite script_bind_unfold, Hmeta.
    unfold write_output, lift, write_gpx, argv_get.
    unfold mbind, script_bind, sbind. by rewrite Hargv, Hopen.
  - intros program filename more tree ulist -> Hparse Hmain Hul Hli.
    unfold run, cck_gpx, try_except, lift, argv_get, print_err, raise.
    unfold mbind, script_bind, sbind, mret, script_ret, sret. simpl.
    rewrite Hparse, Hmain. simpl. rewrite Hul. simpl. rewrite Hli. simpl.
    done.
Qed.

End after_the_loop.

(** X30 at a loop that understood none of one item, at a loop that
    understood the one item of a page, and at a page whose list is empty. *)
Lemma post_loop_accounting_witness :
  "Route incomplete - only understood 0 out of 1 points!"
    ∈ stderr (snd (post_loop (Demo.lib (Demo.el "html" [])) []
                     [Demo.stop_short] (World [] [])))
  ∧ (∃ w', post_loop (Demo.lib (Demo.el "html" []))
             [Waypoint (Some "Alex") (Lib.LatitudeOf "8FVC2222+22")
                (Lib.LongitudeOf "8FVC2222+22")]
             [Demo.stop_ok] (World [] [])
           = (Ret tt, w'))
  ∧ run (Demo.lib (Demo.page_of [])) ["cck_gpx.py"; "in.html"; "out.gpx"]
    = (Raise (SystemExit 1),
       World [ "Found list, but no route points in it!";
               "No route points to emit, giving up." ] []).
Proof.
  split; [|split].
  - apply (proj1 (post_loop_accounting (Demo.lib (Demo.el "html" [])) []
                    (Demo.el "main" []) [] [Demo.stop_short] (World [] []))).
    simpl. lia.
  - destruct (proj1 (proj2 (proj2
               (post_loop_accounting (Demo.lib (Demo.el "html" [])) []
                  (Demo.el "main" [])
                  [Waypoint (Some "Alex") (Lib.LatitudeOf "8FVC2222+22")
                     (Lib.LongitudeOf "8FVC2222+22")]
                  [Demo.stop_ok] (World [] []))))) as (w' & Hw' & _);
      [discriminate | by exists w'].
  - eapply (proj2 (proj2 (proj2
              (post_loop_accounting (Demo.lib (Demo.page_of []))
                 ["cck_gpx.py"; "in.html"; "out.gpx"] _ [] [] (World [] [])))));
      reflexivity.
Defined.

(** C4. A page whose content block holds the list alone: the shape match
    of the second block returns [None], the description step raises
    [TypeError], nothing catches it, and the run ends there, without a
    diagnostic and without an output file, although the stop was
    understood. *)
Theorem metadata_mismatch_ends_run :
  route_metadata (Demo.lib (Demo.el "html" []))
    (Demo.el "main"
       [ Demo.el "div" [ TextNode "CCK Deliveries" ];
         Demo.el "div" [ Demo.el "ul" [Demo.stop_ok] ] ])
    (World [] [])
  = (Raise (TypeError "'NoneType' object is not subscriptable"), World [] [])
  ∧ run (Demo.lib (Demo.bare_page_of [Demo.stop_ok]))
      ["cck_gpx.py"; "in.html"; "out.gpx"]
    = (Raise (TypeError "'NoneType' object is not subscriptable"), World [] [])
  ∧ fst (process_items (Demo.lib (Demo.el "html" [])) 0 1 [Demo.stop_ok] [] (World [] []))
    = Ret [ Waypoint (Some "Alex") (Lib.LatitudeOf "8FVC2222+22")
              (Lib.LongitudeOf "8FVC2222+22") ].
Proof. by vm_compute. Qed.

(** With no argument at all the usage line is printed and the exit status
    is 2. *)
Lemma no_argument_usage (L : extlib) (program : string) :
  run L [program] = (Raise (SystemExit 2), World [usage] [])
  ∧ exit_status (fst (run L [program])) = 2.
Proof. done. Qed.

(** C5. With the input page as the only argument, the output path missing,
    no usage line is printed: the page is read and the stop understood, and
    the run ends on the [IndexError] of [sys.argv[2]], with exit status 1. *)
Theorem one_argument_no_usage :
  run (Demo.lib (Demo.page_of [Demo.stop_ok])) ["cck_gpx.py"; "in.html"]
  = (Raise (IndexError "list index out of range"), World [] [])
  ∧ exit_status
      (fst (run (Demo.lib (Demo.page_of [Demo.stop_ok])) ["cck_gpx.py"; "in.html"]))
    = 1.
Proof. by vm_compute. Qed.

(** * Further properties of the code *)

(** ** Strings *)

Lemma startswith_app p s :
  Py.startswith p s = true → s = p +:+ Py.drop (String.length p) s.
Proof.
  unfold Py.startswith. revert s.
  induction p as [|c p IH]; intros s; [by destruct s |].
  destruct s as [|c' s]; simpl; [done |].
  destruct (Ascii.ascii_dec c c') as [->|]; [|done].
  intros H. change (String c' s = String c' (p +:+ Py.drop (String.length p) s)).
  f_equal. by apply IH.
Qed.

Lemma startswith_of_app p s : Py.startswith p (p +:+ s) = true.
Proof.
  unfold Py.startswith. induction p as [|c p IH]; simpl; [by destruct s |].
  by destruct (Ascii.ascii_dec c c).
Qed.

Lemma drop_app p s : Py.drop (String.length p) (p +:+ s) = s.
Proof. induction p as [|c p IH]; simpl; [by destruct s | done]. Qed.

Lemma rstrip_idempotent s : Py.rstrip (Py.rstrip s) = Py.rstrip s.
Proof.
  induction s as [|c s IH]; simpl; [done |].
  destruct (Py.rstrip s) as [|c' r] eqn:Hr.
  - destruct (Py.isspace c) eqn:Hc; simpl; [done | by rewrite Hc].
  - simpl in *. by rewrite IH.
Qed.

(** A string that [rstrip] leaves alone has tails that it leaves alone. *)
Lemma rstrip_tail a b : Py.rstrip (a +:+ b) = a +:+ b → Py.rstrip b = b.
Proof.
  induction a as [|c a IH]; simpl; [done |].
  destruct (Py.rstrip (a +:+ b)) as [|c' r] eqn:Hr.
  - destruct (Py.isspace c); [done |]. intros [= Hab].
    destruct a; [|done]. cbv in Hab. by subst b.
  - intros [= Hab]. apply IH. by rewrite Hab.
Qed.

Lemma re_dot_star_end_of_stripped s id :
  Py.rstrip s = s → re_dot_star_end s = Some id → s = id ∧ has_line_feed id = false.
Proof.
  revert id. induction s as [|c s IH]; intros id; simpl.
  - by intros _ [= <-].
  - destruct (nat_of_ascii c =? 10)%nat eqn:Hc.
    + destruct s; [|done]. simpl.
      assert (Py.isspace c = true) as ->; [|done].
      apply Nat.eqb_eq in Hc. unfold Py.isspace. by rewrite Hc.
    + intros Hstrip Hre.
      destruct (re_dot_star_end s) as [id'|] eqn:Hid; [|done].
      simpl in Hre. injection Hre as <-.
      assert (Py.rstrip s = s) as Hs.
      { destruct (Py.rstrip s) as [|c' r] eqn:Hr.
        - destruct (Py.isspace c); [done |]. by injection Hstrip as <-.
        - by injection Hstrip as <-. }
      destruct (IH id' Hs eq_refl) as [-> Hlf]. simpl. by rewrite Hc.
Qed.

Lemma re_dot_star_end_no_line_feed id :
  has_line_feed id = false → re_dot_star_end id = Some id.
Proof.
  induction id as [|c id IH]; simpl; [done |].
  intros H. apply orb_false_iff in H as [-> H]. by rewrite IH.
Qed.

(** ** [place_id_from_google_maps_url] *)

Section place_id.

Context (L : extlib).

(** X1. When urllib parses the URL, the function returns the place id [id]
    exactly when the path, percent-decoded and stripped of trailing
    whitespace, is '/maps/place/' followed by [id], and [id] holds no line
    feed; it returns [None] in every other case. *)
Theorem place_id_characterised (url : option string) (parsed : parse_result)
    (id : string) :
  urlparse L url = Ret parsed →
  (place_id_from_google_maps_url L url = Ret (Some id)
   ↔ Py.rstrip (unquote L (path parsed)) = "/maps/place/" +:+ id
     ∧ has_line_feed id = false)
  ∧ (place_id_from_google_maps_url L url = Ret None
     ∨ ∃ id', place_id_from_google_maps_url L url = Ret (Some id')).
Proof.
  intros Hparse. unfold place_id_from_google_maps_url.
  ostep Hparse. unfold re_match_maps_place.
  set (p := Py.rstrip (unquote L (path parsed))).
  assert (Py.rstrip p = p) as Hp by apply rstrip_idempotent.
  split.
  - split.
    + intros [= Hre].
      destruct (Py.startswith "/maps/place/" p) eqn:Hpre; [|done].
      apply startswith_app in Hpre. simpl String.length in Hpre.
      assert (Py.rstrip (Py.drop 12 p) = Py.drop 12 p) as Hrest.
      { apply (rstrip_tail "/maps/place/"). by rewrite <- Hpre. }
      destruct (re_dot_star_end_of_stripped _ _ Hrest Hre) as [Hid Hlf].
      split; [|done]. by rewrite <- Hid.
    + intros [-> Hlf].
      rewrite (startswith_of_app "/maps/place/" id).
      change 12 with (String.length "/maps/place/").
      rewrite drop_app. by rewrite re_dot_star_end_no_line_feed.
  - destruct (Py.startswith "/maps/place/" p); [|by left].
    destruct (re_dot_star_end (Py.drop 12 p)); [right; eauto | by left].
Qed.

(** X2. A place id the function returns has no trailing whitespace and no
    line feed, whatever the URL's path ends with. *)
Theorem place_id_clean (url : option string) (id : string) :
  place_id_from_google_maps_url L url = Ret (Some id) →
  Py.rstrip id = id ∧ has_line_feed id = false.
Proof.
  unfold place_id_from_google_maps_url. intros H.
  destruct (urlparse L url) as [parsed|x] eqn:Hparse; [|done].
  rewrite bind_Ret in H. cbv beta zeta in H. injection H as Hre.
  unfold re_match_maps_place in Hre.
  set (p := Py.rstrip (unquote L (path parsed))) in *.
  destruct (Py.startswith "/maps/place/" p) eqn:Hpre; [|done].
  apply startswith_app in Hpre. simpl String.length in Hpre.
  assert (Py.rstrip (Py.drop 12 p) = Py.drop 12 p) as Hrest.
  { apply (rstrip_tail "/maps/place/"). rewrite <- Hpre. apply rstrip_idempotent. }
  destruct (re_dot_star_end_of_stripped _ _ Hrest Hre) as [Hid Hlf].
  by rewrite Hid in Hrest.
Qed.

End place_id.

(** X1 at a map link whose address ends in an encoded space. *)
Lemma place_id_characterised_witness :
  place_id_from_google_maps_url (Demo.lib (Demo.el "html" []))
    (Some "https://www.google.com/maps/place/8FVC2222+22%20")
  = Ret (Some "8FVC2222+22").
Proof.
  apply (proj1 (place_id_characterised (Demo.lib (Demo.el "html" []))
                  (Some "https://www.google.com/maps/place/8FVC2222+22%20")
                  (ParseResult "https" "/maps/place/8FVC2222+22%20")
                  "8FVC2222+22" eq_refl)).
  split; reflexivity.
Defined.

(** X2 at the same link. *)
Lemma place_id_clean_witness :
  Py.rstrip "8FVC2222+22" = "8FVC2222+22" ∧ has_line_feed "8FVC2222+22" = false.
Proof.
  apply (place_id_clean (Demo.lib (Demo.el "html" []))
           (Some "https://www.google.com/maps/place/8FVC2222+22%20")).
  reflexivity.
Defined.

(** ** More on [match_tags] *)

Section match_tags_more.

Context (L : extlib).

Lemma optional_and_mandatory (pattern : list slot) :
  length pattern
  = length (List.filter slot_opt pattern)
    + length (List.filter (λ tagd, negb (slot_opt tagd)) pattern).
Proof.
  induction pattern as [|t pattern IH]; [done |].
  simpl. destruct (slot_opt t); simpl; lia.
Qed.

Lemma mandatory_in_pattern (pattern : list slot) tagd :
  tagd ∈ List.filter (λ tagd, negb (slot_opt tagd)) pattern →
  tagd ∈ pattern ∧ slot_opt tagd = false.
Proof.
  intros Hin. apply list_elem_of_In, filter_In in Hin as [Hin Hopt].
  split; [by apply list_elem_of_In | by apply negb_true_iff].
Qed.

(** Every binding of the loop's result was there before or is the node a
    slot of that name selected at one of the nodes. *)
Lemma match_tags_loop_provenance pattern nodelist result d name m :
  match_tags_loop L pattern nodelist result = Ret (Some d) →
  d !! name = Some m →
  result !! name = Some m
  ∨ ∃ tagd n, tagd ∈ pattern ∧ slot_bind tagd = Some name
              ∧ n ∈ nodelist ∧ xpath_self L (slot_e tagd) n = [m].
Proof.
  revert nodelist result.
  induction pattern as [|tagd pattern IH]; intros nodelist result; simpl.
  - intros [= <-]. by left.
  - destruct nodelist as [|n nodelist]; [done |].
    destruct (xpath_self L (slot_e tagd) n) as [|m' [|m'' ms]] eqn:Hsel; simpl;
      [done | | done].
    intros Hloop Hd.
    destruct (IH _ _ Hloop Hd) as [Hres | (tagd' & n' & ? & ? & ? & ?)].
    + destruct (slot_bind tagd) as [name'|] eqn:Hbind; [|by left].
      destruct (decide (name' = name)) as [->|Hne].
      * rewrite lookup_insert_eq in Hres. injection Hres as ->.
        right. exists tagd, n. repeat split; [set_solver | done | set_solver | done].
      * rewrite lookup_insert_ne in Hres; [by left | done].
    + right. exists tagd', n'. repeat split; [set_solver | done | set_solver | done].
Qed.

(** The slots [match_tags] walks are slots of the pattern. *)
Lemma match_tags_walks startnode pattern d :
  match_tags L startnode pattern = Ret (Some d) →
  text_free startnode
  ∧ ∃ kept, match_tags_loop L kept (Dom.xpath_elements_and_text startnode) ∅
            = Ret (Some d)
            ∧ (∀ tagd, tagd ∈ kept → tagd ∈ pattern)
            ∧ (length (Dom.xpath_elements_and_text startnode) + 1 = length pattern →
               length (List.filter slot_opt pattern) = 1 →
               ∀ tagd, tagd ∈ kept → slot_opt tagd = false).
Proof.
  unfold match_tags, text_free. pose proof (optional_and_mandatory pattern) as Hsplit.
  set (nodelist := Dom.xpath_elements_and_text startnode) in *.
  set (mandatory := List.filter (λ tagd, negb (slot_opt tagd)) pattern) in *.
  destruct (existsb _ nodelist); [done |]. intros Hm. split; [done |].
  destruct (1 <? length pattern - length mandatory)%nat; [done |].
  destruct (length pattern - length mandatory =? 1)%nat eqn:Hone.
  - destruct (length pattern =? length nodelist + 1)%nat eqn:H1.
    + exists mandatory. split; [done |].
      split; intros; by eapply mandatory_in_pattern.
    + destruct (length pattern =? length nodelist)%nat; simpl in Hm; [|done].
      exists pattern. split; [done |]. split; [done |].
      apply Nat.eqb_neq in H1. lia.
  - exists pattern. split; [done |]. split; [done |].
    apply Nat.eqb_neq in Hone. lia.
Qed.

(** X3. Whatever a match binds comes from the pattern and the parent: a
    name of the result is the name of a slot of the pattern, and its value is
    the one node that slot's expression selects at an element child of the
    parent. *)
Theorem match_tags_provenance (startnode : node) (pattern : list slot)
    (d : gmap string node) (name : string) (m : node) :
  match_tags L startnode pattern = Ret (Some d) →
  d !! name = Some m →
  ∃ tagd child,
    tagd ∈ pattern ∧ slot_bind tagd = Some name
    ∧ child ∈ Dom.child_nodes startnode ∧ Dom.iselement child = true
    ∧ xpath_self L (slot_e tagd) child = [m].
Proof.
  intros Hmatch Hd.
  destruct (match_tags_walks _ _ _ Hmatch) as (Htext & kept & Hloop & Hsub & _).
  destruct (match_tags_loop_provenance _ _ _ _ _ _ Hloop Hd)
    as [Hempty | (tagd & n & Hin & Hbind & Hn & Hsel)]; [done |].
  exists tagd, n. split; [by apply Hsub |]. split; [done |].
  apply list_elem_of_In in Hn as Hn'.
  unfold Dom.xpath_elements_and_text in Hn'. apply filter_In in Hn' as [Hchild _].
  split; [by apply list_elem_of_In |]. split; [|done].
  unfold text_free in Htext.
  destruct (Dom.iselement n) eqn:Hel; [done |].
  assert (existsb (λ x, negb (Dom.iselement x))
            (Dom.xpath_elements_and_text startnode) = true) as Hex.
  { apply existsb_exists. exists n. split; [by apply list_elem_of_In | by rewrite Hel]. }
  congruence.
Qed.

(** X4. The optional slot left out by the counting rule binds nothing: when
    the pattern has one optional slot and the parent one child less than the
    pattern has slots, a name that only optional slots bind is absent from
    the result. *)
Theorem match_tags_optional_absent (startnode : node) (pattern : list slot)
    (d : gmap string node) (name : string) :
  length (List.filter slot_opt pattern) = 1 →
  length (Dom.xpath_elements_and_text startnode) + 1 = length pattern →
  (∀ tagd, tagd ∈ pattern → slot_bind tagd = Some name → slot_opt tagd = true) →
  match_tags L startnode pattern = Ret (Some d) →
  d !! name = None.
Proof.
  intros Hone Hlen Honly Hmatch.
  destruct (match_tags_walks _ _ _ Hmatch) as (_ & kept & Hloop & Hsub & Hmand).
  destruct (d !! name) as [m|] eqn:Hd; [|done].
  destruct (match_tags_loop_provenance _ _ _ _ _ _ Hloop Hd)
    as [Hempty | (tagd & n & Hin & Hbind & _)]; [done |].
  pose proof (Hmand Hlen Hone tagd Hin) as Hfalse.
  pose proof (Honly tagd (Hsub tagd Hin) Hbind) as Htrue. congruence.
Qed.

(** X5. A pattern with more than one optional slot is refused: for every
    parent whose children are all elements the call raises [ValueError],
    whatever the children are. *)
Theorem match_tags_two_optional_raises (startnode : node) (pattern : list slot) :
  text_free startnode →
  1 < length (List.filter slot_opt pattern) →
  match_tags L startnode pattern = Raise (ValueError ">1 optional element in pattern").
Proof.
  unfold text_free, match_tags. intros -> Hmany.
  pose proof (optional_and_mandatory pattern) as Hsplit.
  assert ((1 <? length pattern
                - length (List.filter (λ tagd, negb (slot_opt tagd)) pattern))%nat = true)
    as ->; [|done].
  apply Nat.ltb_lt. lia.
Qed.

(** The loop raises at the first slot that selects several nodes at its
    node, the slots before it having selected one each. *)
Lemma match_tags_loop_ambiguous before tagd after nodes n rest result :
  Forall2 (matches_once L) before nodes →
  1 < length (xpath_self L (slot_e tagd) n) →
  match_tags_loop L (before ++ tagd :: after) (nodes ++ n :: rest) result
  = Raise (ValueError ("Pattern '" +:+ slot_e tagd +:+ "' returned >1 match")).
Proof.
  intros HF Hmany. revert result.
  induction HF as [|t c before nodes Hone HF IH]; intros result; simpl.
  - apply Nat.ltb_lt in Hmany. by rewrite Hmany.
  - unfold matches_once in Hone.
    destruct (xpath_self L (slot_e t) c) as [|m [|m' ms]]; simplify_eq/=.
    apply IH.
Qed.

(** X6. A slot whose expression selects more than one node at its child
    makes the call raise [ValueError] with that expression in the message,
    when the slots before it selected one node each (pattern without
    optional slot, children all elements). *)
Theorem match_tags_ambiguous_raises (startnode : node)
    (before after : list slot) (tagd : slot) (nodes rest : list node) (n : node) :
  text_free startnode →
  List.filter slot_opt (before ++ tagd :: after) = [] →
  Dom.xpath_elements_and_text startnode = nodes ++ n :: rest →
  Forall2 (matches_once L) before nodes →
  1 < length (xpath_self L (slot_e tagd) n) →
  match_tags L startnode (before ++ tagd :: after)
  = Raise (ValueError ("Pattern '" +:+ slot_e tagd +:+ "' returned >1 match")).
Proof.
  unfold text_free, match_tags. intros -> Hopt Hnodes HF Hmany.
  pose proof (optional_and_mandatory (before ++ tagd :: after)) as Hsplit.
  rewrite Hopt in Hsplit. simpl in Hsplit.
  rewrite <- Hsplit, Nat.sub_diag. simpl.
  rewrite Hnodes. by apply match_tags_loop_ambiguous.
Qed.

End match_tags_more.

(** X3 at the list item of a stop: the name [div1] is the item's block. *)
Lemma match_tags_provenance_witness :
  ∃ tagd child,
    tagd ∈ pattern_item ∧ slot_bind tagd = Some "div1"
    ∧ child ∈ Dom.child_nodes Demo.stop_ok ∧ Dom.iselement child = true
    ∧ xpath_self (Demo.lib (Demo.el "html" [])) (slot_e tagd) child
      = [Demo.stop_block "Alex" "8FVC2222+22" "portions" (Demo.maps_url "8FVC2222+22")].
Proof.
  apply (match_tags_provenance (Demo.lib (Demo.el "html" [])) Demo.stop_ok pattern_item
           {[ "div1" := Demo.stop_block "Alex" "8FVC2222+22" "portions"
                          (Demo.maps_url "8FVC2222+22") ]} "div1");
    vm_compute; reflexivity.
Defined.

(** X4 at the block of a stop without the optional paragraph: six children
    for seven slots, and no [nothome_p] in the result. *)
Lemma match_tags_optional_absent_witness :
  (list_to_map
     [ ("name_olc_div", Demo.name_block "Alex" "8FVC2222+22");
       ("addr_p", Demo.p "1 Example Street");
       ("portions_div", Demo.portions_block "portions");
       ("insns_p", Demo.p "Leave at the door");
       ("allergies_p", Demo.p "None");
       ("links_div", Demo.links (Demo.maps_url "8FVC2222+22")) ]
   : gmap string node) !! "nothome_p" = None.
Proof.
  apply (match_tags_optional_absent (Demo.lib (Demo.el "html" []))
           (Demo.stop_block "Alex" "8FVC2222+22" "portions" (Demo.maps_url "8FVC2222+22"))
           pattern_stop).
  - reflexivity.
  - reflexivity.
  - intros tagd Hin Hbind.
    repeat (apply elem_of_cons in Hin as [-> | Hin]; [by simplify_eq/= |]).
    by apply elem_of_nil in Hin.
  - vm_compute. reflexivity.
Defined.

(** X5 at a pattern with two optional slots. *)
Lemma match_tags_two_optional_raises_witness :
  match_tags (Demo.lib (Demo.el "html" [])) Demo.empty_item
    [ Slot "div" None true; Slot "p" None true ]
  = Raise (ValueError ">1 optional element in pattern").
Proof.
  apply (match_tags_two_optional_raises (Demo.lib (Demo.el "html" [])) Demo.empty_item
           [ Slot "div" None true; Slot "p" None true ]).
  - reflexivity.
  - simpl. lia.
Defined.

(** X6 at a slot that selects the paragraphs below a block with two of
    them. *)
Lemma match_tags_ambiguous_raises_witness :
  match_tags (Demo.lib (Demo.el "html" []))
    (Demo.el "li" [Demo.name_block "Alex" "8FVC2222+22"])
    ([] ++ [Slot "*/p" (Some "name") false])
  = Raise (ValueError "Pattern '*/p' returned >1 match").
Proof.
  apply (match_tags_ambiguous_raises (Demo.lib (Demo.el "html" []))
           (Demo.el "li" [Demo.name_block "Alex" "8FVC2222+22"])
           [] [] (Slot "*/p" (Some "name") false) [] []
           (Demo.name_block "Alex" "8FVC2222+22")).
  - reflexivity.
  - reflexivity.
  - reflexivity.
  - constructor.
  - simpl. lia.
Defined.

(** X8 at the block of a stop and the seven-slot pattern. *)
Lemma match_tags_one_optional_iff_witness :
  (∃ d, match_tags (Demo.lib (Demo.el "html" []))
          (Demo.stop_block "Alex" "8FVC2222+22" "portions" (Demo.maps_url "8FVC2222+22"))
          pattern_stop = Ret (Some d))
  ↔ ∃ kept,
      (kept = pattern_stop
       ∨ kept = List.filter (λ tagd, negb (slot_opt tagd)) pattern_stop)
      ∧ length kept
        = length (Dom.xpath_elements_and_text
                    (Demo.stop_block "Alex" "8FVC2222+22" "portions"
                       (Demo.maps_url "8FVC2222+22")))
      ∧ Forall2 (matches_once (Demo.lib (Demo.el "html" []))) kept
          (Dom.xpath_elements_and_text
             (Demo.stop_block "Alex" "8FVC2222+22" "portions"
                (Demo.maps_url "8FVC2222+22"))).
Proof.
  apply (match_tags_one_optional_iff (Demo.lib (Demo.el "html" []))
           (Demo.stop_block "Alex" "8FVC2222+22" "portions" (Demo.maps_url "8FVC2222+22"))
           pattern_stop); reflexivity.
Defined.

(** X9 at the list item whose block is followed by a rule. *)
Lemma match_tags_no_optional_iff_witness :
  (∃ d, match_tags (Demo.lib (Demo.el "html" [])) Demo.item_with_rule pattern_item
        = Ret (Some d))
  ↔ length pattern_item ≤ length (Dom.xpath_elements_and_text Demo.item_with_rule)
    ∧ Forall2 (matches_once (Demo.lib (Demo.el "html" []))) pattern_item
        (take (length pattern_item) (Dom.xpath_elements_and_text Demo.item_with_rule)).
Proof.
  apply (match_tags_no_optional_iff (Demo.lib (Demo.el "html" []))
           Demo.item_with_rule pattern_item); reflexivity.
Defined.

(** ** More on [firstnameish] *)

Lemma split_nil_iff s : Py.split s = [] ↔ all_isspace s = true.
Proof.
  induction s as [|c s IH]; simpl; [done |].
  destruct (Py.isspace c); simpl; [done |].
  split; [|done].
  destruct (Py.begins_word s); [by destruct (Py.split s) | done].
Qed.

(** X10. The name is [None] exactly when the full name is empty or all
    whitespace; any full name with a word in it gets a name. *)
Theorem firstnameish_None_iff (fullname : string) :
  firstnameish fullname = None ↔ all_isspace fullname = true.
Proof.
  rewrite <- split_nil_iff, firstnameish_closed_form.
  by destruct (Py.split fullname) as [|name0 [|name1 rest]].
Qed.

(** X11. The name begins with the first word of the full name. *)
Theorem firstnameish_first_word (fullname out : string) :
  firstnameish fullname = Some out →
  ∃ name0, head (Py.split fullname) = Some name0 ∧ head (Py.split out) = Some name0.
Proof.
  rewrite firstnameish_closed_form.
  pose proof (split_words fullname) as HF.
  destruct (Py.split fullname) as [|name0 [|name1 rest]]; [done | |];
    inversion HF as [|? ? Hw0 _]; subst; intros [= <-]; exists name0;
    (split; [done |]).
  - by rewrite split_word.
  - destruct (re_match_initial name0); simpl; [|by rewrite split_word].
    destruct rest.
    + change (name0 +:+ " " +:+ first_char name1 +:+ ".")
        with (name0 +:+ String " " (first_char name1 +:+ ".")).
      rewrite split_app_space; [|done]. by rewrite split_word.
    + change (name0 +:+ " " +:+ name1) with (name0 +:+ String " " name1).
      rewrite split_app_space; [|done]. by rewrite split_word.
Qed.

(** X11 at the full name 'F Bloggs', whose name is 'F B.'. *)
Lemma firstnameish_first_word_witness :
  ∃ name0, head (Py.split "F Bloggs") = Some name0 ∧ head (Py.split "F B.") = Some name0.
Proof. apply (firstnameish_first_word "F Bloggs" "F B."). reflexivity. Defined.

(** ** More on the strict extraction *)

Lemma bind_Ret_inv {A B} (m : outcome A) (k : A → outcome B) (b : B) :
  m ≫= k = Ret b → ∃ a, m = Ret a ∧ k a = Ret b.
Proof. destruct m as [a|x]; [eauto | done]. Qed.

Lemma subscript_Ret_inv {V} (d : option (gmap string V)) k v :
  subscript d k = Ret v → ∃ m, d = Some m ∧ m !! k = Some v.
Proof.
  destruct d as [m|]; simpl; [|done].
  destruct (m !! k) eqn:Hk; [|done]. intros [= ->]. eauto.
Qed.

(** One step back in a computation that returned: the value [x] of its
    first part, with the equation [E] that gives it. *)
Tactic Notation "step_back" hyp(H) "as" ident(x) ident(E) :=
  apply bind_Ret_inv in H; destruct H as (x & E & H); cbv beta zeta in H.

Section strict_more.

Context (L : extlib).

Lemma strict_fields_inv listitem ptname fields l3 :
  strict_fields L listitem = Ret (ptname, fields, l3) →
  ∃ fullname placeid address portionstext insns allergies nothome maplink_a links,
    ptname = firstnameish fullname
    ∧ Py.contains "portion" portionstext = true
    ∧ l3 = Some links ∧ links !! "maplink_a" = Some maplink_a
    ∧ fields = fields_of fullname placeid address (Py.strip portionstext)
                 insns allergies nothome (Dom.get "href" maplink_a).
Proof.
  unfold strict_fields. intros H.
  step_back H as l1 E1. step_back H as div1 Ediv1.
  step_back H as l2 E2. step_back H as name_olc_div Ename.
  step_back H as l3' E3. step_back H as fullname_p Efull.
  step_back H as olc_p Eolc. step_back H as addr_p Eaddr.
  step_back H as portions_div Eportions.
  destruct (negb (Py.contains "portion" (Dom.text_content portions_div)))
    eqn:Hportion; [done |].
  apply negb_false_iff in Hportion.
  step_back H as insns_p Einsns. step_back H as allergies_p Eallergies.
  step_back H as has_nothome Ehas. step_back H as fields' Efields.
  step_back H as links_div Elinks. step_back H as l3'' E3'.
  step_back H as maplink_a Emap. injection H as <- <- <-.
  apply subscript_Ret_inv in Emap as (links & -> & Hlink).
  assert (∃ nothome,
            fields'
            = match nothome with
              | Some text => <["nothome" := Some text]>
              | None => λ fields, fields
              end
                (<["allergies" := Some (Py.strip (Dom.text_content allergies_p))]>
                   (<["instructions" := Some (Py.strip (Dom.text_content insns_p))]>
                      (<["portions" := Some (Py.strip (Dom.text_content portions_div))]>
                         (<["address" := Some (Py.strip (Dom.text_content addr_p))]>
                            (<["placeid" := Some (Py.strip (Dom.text_content olc_p))]>
                               (<["fullname" := Some (Py.strip (Dom.text_content fullname_p))]>
                                  ∅))))))) as [nothome ->].
  { destruct has_nothome.
    - step_back Efields as nothome_p Enothome. injection Efields as <-.
      by eexists (Some _).
    - injection Efields as <-. by exists None. }
  by eexists _, _, _, _, _, _, nothome, _, links.
Qed.

(** The nodes behind a record that was read: the name comes from the first
    paragraph of the name block, the place id is the stripped text of its
    second paragraph, and the map URL is the target of the first link of the
    links block. *)
Lemma strict_fields_sources listitem ptname fields l3 :
  strict_fields L listitem = Ret (ptname, fields, l3) →
  ∃ fullname_p olc_p maplink_a,
    strict_sources L listitem fullname_p olc_p maplink_a
    ∧ ptname = firstnameish (Py.strip (Dom.text_content fullname_p))
    ∧ fields !! "placeid" = Some (Some (Py.strip (Dom.text_content olc_p)))
    ∧ fields !! "mapurl" = Some (Dom.get "href" maplink_a).
Proof.
  unfold strict_fields. intros H.
  step_back H as l1 E1. step_back H as div1 Ediv1.
  step_back H as l2 E2. step_back H as name_olc_div Ename.
  step_back H as l3' E3. step_back H as fullname_p Efull.
  step_back H as olc_p Eolc. step_back H as addr_p Eaddr.
  step_back H as portions_div Eportions.
  destruct (negb (Py.contains "portion" (Dom.text_content portions_div))); [done |].
  step_back H as insns_p Einsns. step_back H as allergies_p Eallergies.
  step_back H as has_nothome Ehas. step_back H as fields' Efields.
  step_back H as links_div Elinks. step_back H as l3'' E3'.
  step_back H as maplink_a Emap. injection H as <- <- <-.
  apply subscript_Ret_inv in Ediv1 as (m1 & -> & Hdiv1).
  apply subscript_Ret_inv in Ename as (m2 & -> & Hname).
  apply subscript_Ret_inv in Efull as (names & -> & Hfull).
  apply subscript_Ret_inv in Eolc as (names' & [= <-] & Holc).
  apply subscript_Ret_inv in Elinks as (m2' & [= <-] & Hlinks).
  apply subscript_Ret_inv in Emap as (links & -> & Hmap).
  exists fullname_p, olc_p, maplink_a.
  split; [by exists m1, div1, m2, name_olc_div, names, links_div, links |].
  split; [done |].
  assert (fields' !! "placeid" = Some (Some (Py.strip (Dom.text_content olc_p))))
    as Hplaceid.
  { destruct has_nothome.
    - step_back Efields as nothome_p Enothome. by injection Efields as <-.
    - by injection Efields as <-. }
  split; [by rewrite lookup_insert_ne | apply lookup_insert_eq].
Qed.

End strict_more.

Section strict_results.

Context (L : extlib).

Lemma fields_of_placeid fullname placeid address portions insns allergies nothome mapurl :
  fields_of fullname placeid address portions insns allergies nothome mapurl
    !! "placeid" = Some (Some placeid).
Proof. unfold fields_of. by destruct nothome. Qed.

Lemma fields_of_mapurl fullname placeid address portions insns allergies nothome mapurl :
  fields_of fullname placeid address portions insns allergies nothome mapurl
    !! "mapurl" = Some mapurl.
Proof. unfold fields_of. by destruct nothome. Qed.

Lemma py_in_Ret_inv {V} k (d : option (gmap string V)) b :
  py_in k d = Ret b → ∃ m, d = Some m ∧ b = bool_decide (is_Some (m !! k)).
Proof. destruct d as [m|]; simpl; [|done]. intros [= <-]. eauto. Qed.

(** What a strict extraction that returns went through. *)
Lemma strict_extract_inv (listitem : node) (ptname placeid : option string) :
  strict_extract L listitem = Ret (ptname, placeid) →
  ∃ code fields l3 mapurl fullname,
    strict_fields L listitem = Ret (ptname, fields, l3)
    ∧ placeid = Some code
    ∧ fields !! "placeid" = Some (Some code)
    ∧ fields !! "mapurl" = Some mapurl
    ∧ place_id_from_google_maps_url L mapurl = Ret (Some code)
    ∧ olc_isValid L code = true
    ∧ fields !! "fullname" = Some (Some fullname)
    ∧ ptname = firstnameish fullname.
Proof.
  unfold strict_extract. intros H.
  step_back H as r Efields. destruct r as [[ptname' fields] l3].
  step_back H as r Echecks. destruct r as [placeid' fields'].
  injection H as -> ->.
  destruct (strict_fields_inv L _ _ _ _ Efields)
    as (fullname & code & address & portionstext & insns & allergies & nothome
        & maplink_a & links & -> & _ & -> & _ & ->).
  unfold strict_checks in Echecks.
  rewrite (subscript_Some _ _ _ (fields_of_mapurl _ _ _ _ _ _ _ _)) in Echecks.
  rewrite bind_Ret in Echecks. cbv beta zeta in Echecks.
  step_back Echecks as from_url Eurl.
  rewrite (subscript_Some _ _ _ (fields_of_placeid _ _ _ _ _ _ _ _)) in Echecks.
  rewrite bind_Ret in Echecks. cbv beta zeta in Echecks.
  destruct (bool_decide (Some code = from_url)) eqn:Hsame; [|done].
  apply bool_decide_eq_true in Hsame as <-. simpl in Echecks.
  destruct (olc_isValid L code) eqn:Hvalid; [|done]. simpl in Echecks.
  step_back Echecks as fields'' Etel. injection Echecks as <- <-.
  exists code. eexists _, _, _, fullname.
  split; [done |]. split; [done |].
  split; [apply fields_of_placeid |]. split; [apply fields_of_mapurl |].
  split; [done |]. split; [done |]. split; [|done].
  unfold fields_of. by destruct nothome.
Qed.

(** X14. A strict extraction that returns vouches for its place id.  The
    list item matched the one-slot pattern, its block the seven-slot
    pattern, the name block bound a name paragraph and a code paragraph and
    the links block a map link; the place id returned is the stripped text
    of that code paragraph, it is also what the map link's [href] gives as
    place id, and the library finds it valid.  The name returned is the one
    derived from the stripped text of the name paragraph. *)
Theorem strict_extract_sound (listitem : node) (ptname placeid : option string) :
  strict_extract L listitem = Ret (ptname, placeid) →
  ∃ fullname_p olc_p maplink_a,
    strict_sources L listitem fullname_p olc_p maplink_a
    ∧ placeid = Some (Py.strip (Dom.text_content olc_p))
    ∧ place_id_from_google_maps_url L (Dom.get "href" maplink_a) = Ret placeid
    ∧ olc_isValid L (Py.strip (Dom.text_content olc_p)) = true
    ∧ ptname = firstnameish (Py.strip (Dom.text_content fullname_p)).
Proof.
  unfold strict_extract. intros H.
  step_back H as r Efields. destruct r as [[ptname' fields] l3].
  step_back H as r Echecks. destruct r as [placeid' fields'].
  injection H as -> ->.
  destruct (strict_fields_sources L _ _ _ _ Efields)
    as (fullname_p & olc_p & maplink_a & Hsources & -> & Hplaceid & Hmapurl).
  unfold strict_checks in Echecks.
  rewrite (subscript_Some _ _ _ Hmapurl) in Echecks.
  rewrite bind_Ret in Echecks. cbv beta zeta in Echecks.
  step_back Echecks as from_url Eurl.
  rewrite (subscript_Some _ _ _ Hplaceid) in Echecks.
  rewrite bind_Ret in Echecks. cbv beta zeta in Echecks.
  destruct (bool_decide (Some (Py.strip (Dom.text_content olc_p)) = from_url))
    eqn:Hsame; [|done].
  apply bool_decide_eq_true in Hsame as <-. simpl in Echecks.
  destruct (olc_isValid L (Py.strip (Dom.text_content olc_p))) eqn:Hvalid; [|done].
  simpl in Echecks.
  step_back Echecks as fields'' Etel. injection Echecks as <- <-.
  by exists fullname_p, olc_p, maplink_a.
Qed.

(** X15. The record of a strict extraction is complete: the six texts are
    there, the map link's target is there (as [None] when the link has no
    [href]), no key besides these and ['nothome'] is set, the name derives
    from the full name, and the portions text is that of a block that said
    'portion'. *)
Theorem strict_fields_record (listitem : node) (ptname : option string)
    (fields : gmap string (option string)) (l3 : option (gmap string node)) :
  strict_fields L listitem = Ret (ptname, fields, l3) →
  (∀ k, k ∈ ["fullname"; "placeid"; "address"; "portions"; "instructions"; "allergies"] →
        ∃ text, fields !! k = Some (Some text))
  ∧ is_Some (fields !! "mapurl")
  ∧ (∀ k, is_Some (fields !! k) →
          k ∈ ["fullname"; "placeid"; "address"; "portions"; "instructions";
               "allergies"; "nothome"; "mapurl"])
  ∧ (∃ fullname, fields !! "fullname" = Some (Some fullname)
                 ∧ ptname = firstnameish fullname)
  ∧ (∃ portionstext, fields !! "portions" = Some (Some (Py.strip portionstext))
                     ∧ Py.contains "portion" portionstext = true).
Proof.
  intros H.
  destruct (strict_fields_inv L _ _ _ _ H)
    as (fullname & code & address & portionstext & insns & allergies & nothome
        & maplink_a & links & -> & Hportion & -> & _ & ->).
  unfold fields_of. split; [|split; [|split; [|split]]].
  - intros k Hk.
    repeat (apply elem_of_cons in Hk as [-> | Hk];
            [destruct nothome; eexists; reflexivity |]).
    by apply elem_of_nil in Hk.
  - by destruct nothome.
  - intros k Hk. destruct nothome; cbv beta iota in Hk;
      rewrite !lookup_insert_is_Some in Hk;
      repeat (destruct Hk as [<- | [_ Hk]]; [set_solver |]);
      by apply lookup_empty_is_Some in Hk.
  - exists fullname. by destruct nothome.
  - exists portionstext. by destruct nothome.
Qed.

(** X16. The 'Call' link adds the key ['telephone'] and touches nothing
    else; without the link the record is unchanged. *)
Theorem strict_telephone_adds_only (fields fields' : gmap string (option string))
    (l3 : option (gmap string node)) :
  strict_telephone L fields l3 = Ret fields' →
  (∀ k, k ≠ "telephone" → fields' !! k = fields !! k)
  ∧ ∃ links, l3 = Some links
             ∧ (links !! "tellink_a" = None → fields' = fields)
             ∧ (is_Some (links !! "tellink_a") →
                ∃ telephone, fields' !! "telephone" = Some (Some telephone)).
Proof.
  unfold strict_telephone. intros H.
  step_back H as has_tellink Ehas.
  apply py_in_Ret_inv in Ehas as (links & -> & ->).
  destruct (links !! "tellink_a") as [tellink_a|] eqn:Hlink.
  - rewrite bool_decide_true in H by eauto.
    step_back H as a Ea. step_back H as tel_parsed Eparse.
    assert (∃ telephone, fields' = <["telephone" := Some telephone]> fields)
      as [telephone ->].
    { destruct (bool_decide (scheme tel_parsed = "tel")); [injection H as <-; eauto |].
      destruct (Dom.get "href" a) as [tellink|].
      - destruct (_ && _); [injection H as <-; eauto | done].
      - by destruct (bool_decide (scheme tel_parsed = "")). }
    split; [intros k Hk; rewrite lookup_insert_ne; [done | congruence] |].
    exists links. split; [done |]. split; [intros ?; congruence |].
    intros _. exists telephone. apply lookup_insert_eq.
  - rewrite bool_decide_false in H by (intros [? ?]; done).
    injection H as <-. split; [done |].
    exists links. split; [done |]. split; [done |]. intros [? ?]. congruence.
Qed.


(** X13. An item whose strict extraction failed and which holds no map
    link, or several, is left out: the fallback reports that it found no map
    URL, the conversion reports the place id 'None', and the waypoints stay
    as they were. *)
Theorem no_unique_link_skips (index total : nat) (listitem : node)
    (rps : list (waypoint (coord L))) (w : world (coord L)) (e : exn) :
  strict_extract L listitem = Raise e →
  is_Value_Key_TypeError e = true →
  length (Dom.xpath_links_containing "google.com/maps" listitem) ≠ 1 →
  process_item L index total listitem rps w
  = (Ret rps,
     World (stderr w
            ++ [ str_of_exn e;
                 "Failed to fully understand route point "
                 +:+ Py.str_of_nat (index + 1) +:+ " (of "
                 +:+ Py.str_of_nat total +:+ "), falling back to URL-only";
                 "Fallback failed to find map URL for point "
                 +:+ Py.str_of_nat (index + 1) +:+ "!";
                 "Couldn't parse point " +:+ Py.str_of_nat (index + 1)
                 +:+ "'s place ID 'None' as a full-length plus code" ])
           (files w)).
Proof.
  intros Hstrict Hcaught Hlinks.
  rewrite (process_item_fallback L _ _ _ _ _ _ Hstrict Hcaught).
  unfold fallback, try_except, lift, convert, print_err.
  assert (∃ msg, unpack1 (Dom.xpath_links_containing "google.com/maps" listitem)
                 = Raise (ValueError msg)) as [msg ->].
  { destruct (Dom.xpath_links_containing "google.com/maps" listitem) as [|a [|b l]];
      simpl in *; [| done |]; unfold unpack_error; simpl; eauto. }
  unfold mbind, script_bind, sbind, mret, script_ret, sret. simpl.
  by rewrite <- !app_assoc.
Qed.

End strict_results.

(** X13 at a list item that holds two map links and no block. *)
Lemma no_unique_link_skips_witness :
  process_item (Demo.lib (Demo.el "html" [])) 0 1 item_two_links [] (World [] [])
  = (Ret [],
     World [ "'NoneType' object is not subscriptable";
             "Failed to fully understand route point 1 (of 1), falling back to URL-only";
             "Fallback failed to find map URL for point 1!";
             "Couldn't parse point 1's place ID 'None' as a full-length plus code" ]
           []).
Proof.
  apply (no_unique_link_skips (Demo.lib (Demo.el "html" [])) 0 1 item_two_links []
           (World [] []) (TypeError "'NoneType' object is not subscriptable")).
  - reflexivity.
  - reflexivity.
  - vm_compute. lia.
Defined.

(** X14 at a stop of the full shape with a full code. *)
Lemma strict_extract_sound_witness :
  ∃ fullname_p olc_p maplink_a,
    strict_sources (Demo.lib (Demo.el "html" [])) Demo.stop_ok
      fullname_p olc_p maplink_a
    ∧ Some "8FVC2222+22" = Some (Py.strip (Dom.text_content olc_p))
    ∧ place_id_from_google_maps_url (Demo.lib (Demo.el "html" []))
        (Dom.get "href" maplink_a)
      = Ret (Some "8FVC2222+22")
    ∧ Lib.isValid (Py.strip (Dom.text_content olc_p)) = true
    ∧ Some "Alex" = firstnameish (Py.strip (Dom.text_content fullname_p)).
Proof.
  apply (strict_extract_sound (Demo.lib (Demo.el "html" [])) Demo.stop_ok
           (Some "Alex") (Some "8FVC2222+22")).
  vm_compute. reflexivity.
Defined.

(** X15 at the same stop: the record has its map link's target. *)
Lemma strict_fields_record_witness :
  ∃ ptname fields l3,
    strict_fields (Demo.lib (Demo.el "html" [])) Demo.stop_ok = Ret (ptname, fields, l3)
    ∧ is_Some (fields !! "mapurl").
Proof.
  eexists _, _, _. split; [reflexivity |].
  refine (proj1 (proj2 (strict_fields_record (Demo.lib (Demo.el "html" []))
                          Demo.stop_ok _ _ _ _))).
  reflexivity.
Defined.

(** X16 at a links block with a 'Call' link to a telephone address. *)
Lemma strict_telephone_adds_only_witness :
  (∀ k, k ≠ "telephone" →
        (<["telephone" := Some "01234 567890"]> ∅ : gmap string (option string)) !! k
        = (∅ : gmap string (option string)) !! k)
  ∧ ∃ links : gmap string node,
      Some ({[ "tellink_a" := Demo.a "tel:01234%20567890" "Call" ]} : gmap string node)
      = Some links
      ∧ (links !! "tellink_a" = None →
         (<["telephone" := Some "01234 567890"]> ∅ : gmap string (option string)) = ∅)
      ∧ (is_Some (links !! "tellink_a") →
         ∃ telephone,
           (<["telephone" := Some "01234 567890"]> ∅ : gmap string (option string))
             !! "telephone" = Some (Some telephone)).
Proof.
  apply (strict_telephone_adds_only (Demo.lib (Demo.el "html" [])) ∅
           (<["telephone" := Some "01234 567890"]> ∅)
           (Some {[ "tellink_a" := Demo.a "tel:01234%20567890" "Call" ]})).
  vm_compute. reflexivity.
Defined.


(** ** The loop as a whole *)

Section loop_invariants.

Context (L : extlib).

(** The conversion either appends one waypoint, decoded from a valid full
    code, printing nothing, or prints one line and appends nothing. *)
Lemma convert_effect index ptname placeid (rps : list (waypoint (coord L))) w :
  ∃ rps' more,
    convert L index ptname placeid rps w
    = (Ret rps', World (stderr w ++ more) (files w))
    ∧ ((rps' = rps ∧ length more = 1)
       ∨ (∃ wp code, rps' = rps ++ [wp] ∧ more = [] ∧ wp_name wp = ptname
                     ∧ placeid = Some code ∧ decoded_from L code wp)).
Proof.
  unfold convert.
  destruct (Py.truthy placeid && olc_isValid L (Py.str_of_opt placeid)
            && olc_isFull L (Py.str_of_opt placeid)) eqn:Hok.
  - apply andb_true_iff in Hok as [Hok Hfull].
    apply andb_true_iff in Hok as [Htruthy Hvalid].
    destruct placeid as [code|]; [|done]. simpl in *.
    destruct (olc_decode_latlng L code) as [lat lng] eqn:Hdecode.
    eexists _, []. split; [by rewrite app_nil_r; destruct w |].
    right. eexists _, code. split; [done |]. split; [done |]. split; [done |].
    split; [done |]. unfold decoded_from. simpl. by rewrite Hdecode.
  - eexists rps, [_]. split; [done |]. by left.
Qed.

(** The fallback prints at least one line, and writes no file. *)
Lemma fallback_effect index total listitem e (w : world (coord L)) :
  ∃ r more,
    fallback L index total listitem e w = (r, World (stderr w ++ more) (files w))
    ∧ 1 ≤ length more.
Proof.
  unfold fallback, try_except, lift, print_err.
  set (scan := unpack1 (Dom.xpath_links_containing "google.com/maps" listitem)
               ≫= λ maplink_a, place_id_from_google_maps_url L (Dom.get "href" maplink_a)).
  unfold mbind, script_bind, sbind, mret, script_ret, sret. simpl.
  destruct scan as [placeid | x]; simpl.
  - eexists _, [_; _]. rewrite <- !app_assoc. split; [done | simpl; lia].
  - destruct (is_ValueError x); simpl.
    + eexists _, [_; _; _]. rewrite <- !app_assoc. split; [done | simpl; lia].
    + eexists _, [_; _]. rewrite <- !app_assoc. split; [done | simpl; lia].
Qed.

(** One turn of the loop: no file is written, what was printed stays, and a
    turn that returns either appends one waypoint decoded from a valid full
    code or appends nothing and prints at least one line. *)
Lemma process_item_effect index total listitem (rps : list (waypoint (coord L))) w r w' :
  process_item L index total listitem rps w = (r, w') →
  ∃ more,
    w' = World (stderr w ++ more) (files w)
    ∧ ∀ rps', r = Ret rps' →
        (rps' = rps ∧ 1 ≤ length more)
        ∨ (∃ wp code, rps' = rps ++ [wp] ∧ decoded_from L code wp).
Proof.
  unfold process_item. rewrite script_bind_unfold. unfold try_except, lift.
  destruct (strict_extract L listitem) as [[ptname placeid] | e].
  - destruct (convert_effect index ptname placeid rps w)
      as (rps1 & more & -> & Hconv).
    intros [= <- <-]. exists more. split; [done |].
    intros ? [= <-]. destruct Hconv as [[-> Hlen] | (wp & code & -> & _ & _ & _ & Hwp)];
      [left; split; [done | lia] | right; eauto].
  - destruct (is_Value_Key_TypeError e).
    + destruct (fallback_effect index total listitem e w) as (r1 & more1 & -> & Hlen).
      destruct r1 as [[ptname placeid] | x].
      * destruct (convert_effect index ptname placeid rps
                    (World (stderr w ++ more1) (files w)))
          as (rps1 & more & -> & Hconv).
        intros [= <- <-]. exists (more1 ++ more). simpl.
        split; [by rewrite app_assoc |].
        intros ? [= <-]. rewrite length_app.
        destruct Hconv as [[-> _] | (wp & code & -> & _ & _ & _ & Hwp)];
          [left; split; [done | lia] | right; eauto].
      * intros [= <- <-]. exists more1. split; [done | done].
    + intros [= <- <-]. exists []. split; [by rewrite app_nil_r; destruct w | done].
Qed.

(** The loop: no file is written, what was printed stays, and a loop that
    returns has appended, in order, at most one waypoint per item, each
    decoded from a valid full code, and printed at least one line for each
    item without a waypoint. *)
Lemma process_items_effect items index total (rps : list (waypoint (coord L))) w r w' :
  process_items L index total items rps w = (r, w') →
  ∃ more,
    w' = World (stderr w ++ more) (files w)
    ∧ ∀ rps', r = Ret rps' →
        ∃ new, rps' = rps ++ new
               ∧ length new ≤ length items
               ∧ Forall (λ wp, ∃ code, decoded_from L code wp) new
               ∧ length items ≤ length new + length more.
Proof.
  revert index rps w.
  induction items as [|listitem items IH]; intros index rps w; simpl.
  - intros [= <- <-]. exists []. split; [by rewrite app_nil_r; destruct w |].
    intros ? [= <-]. exists []. rewrite app_nil_r.
    split; [done |]. split; [simpl; lia |]. split; [constructor | simpl; lia].
  - rewrite script_bind_unfold.
    destruct (process_item L index total listitem rps w) as [r1 w1] eqn:Hitem.
    destruct (process_item_effect _ _ _ _ _ _ _ Hitem) as (more1 & -> & Hstep).
    destruct r1 as [rps1 | x].
    + intros Hrest. destruct (IH _ _ _ Hrest) as (more & -> & Hloop).
      exists (more1 ++ more). simpl. split; [by rewrite app_assoc |].
      intros rps' ->. destruct (Hloop rps' eq_refl) as (new & -> & Hlen & Hvalid & Hprinted).
      rewrite length_app.
      destruct (Hstep rps1 eq_refl) as [[-> Hone] | (wp & code & -> & Hwp)].
      * exists new. split; [done |]. split; [lia |]. split; [done | lia].
      * exists (wp :: new). rewrite <- app_assoc. simpl.
        split; [done |]. split; [lia |]. split; [constructor; eauto | lia].
    + intros [= <- <-]. exists more1. split; [done | done].
Qed.

Lemma unpack1_Ret_inv {A} (l : list A) a : unpack1 l = Ret a → l = [a].
Proof. destruct l as [|b [|c l]]; simpl; [done | by intros [= ->] | done]. Qed.

(** What the fallback printed and found, when it returns: the two lines
    come first, the name is the position's, and a place id other than [None]
    is that of the item's one map link. *)
Lemma fallback_inv index total listitem e (w : world (coord L)) r w' :
  fallback L index total listitem e w = (r, w') →
  ∃ more,
    w' = World (stderr w
                ++ [ str_of_exn e;
                     "Failed to fully understand route point "
                     +:+ Py.str_of_nat (index + 1) +:+ " (of "
                     +:+ Py.str_of_nat total +:+ "), falling back to URL-only" ]
                ++ more) (files w)
    ∧ ∀ ptname placeid, r = Ret (ptname, placeid) →
        ptname = Some ("Delivery no " +:+ Py.str_of_nat (index + 1))
        ∧ (placeid = None
           ∨ ∃ maplink_a,
               Dom.xpath_links_containing "google.com/maps" listitem = [maplink_a]
               ∧ place_id_from_google_maps_url L (Dom.get "href" maplink_a)
                 = Ret placeid).
Proof.
  unfold fallback, try_except, lift, print_err.
  set (scan := unpack1 (Dom.xpath_links_containing "google.com/maps" listitem)
               ≫= λ maplink_a, place_id_from_google_maps_url L (Dom.get "href" maplink_a)).
  assert (∀ placeid, scan = Ret placeid →
            ∃ maplink_a,
              Dom.xpath_links_containing "google.com/maps" listitem = [maplink_a]
              ∧ place_id_from_google_maps_url L (Dom.get "href" maplink_a)
                = Ret placeid) as Hscan.
  { intros placeid H. apply bind_Ret_inv in H as (a & Ha & H).
    apply unpack1_Ret_inv in Ha. eauto. }
  unfold mbind, script_bind, sbind, mret, script_ret, sret. simpl.
  destruct scan as [placeid | x]; simpl.
  - intros [= <- <-]. exists []. rewrite <- !app_assoc. split; [done |].
    intros ? ? [= <- <-]. split; [done |]. right. by apply Hscan.
  - destruct (is_ValueError x); simpl.
    + intros [= <- <-]. eexists [_]. rewrite <- !app_assoc. split; [done |].
      intros ? ? [= <- <-]. split; [done | by left].
    + intros [= <- <-]. exists []. rewrite <- !app_assoc. split; [done | done].
Qed.

(** A turn of the loop that returns appended nothing, or the waypoint its
    item gives at its position. *)
Lemma process_item_emits index total listitem (rps rps' : list (waypoint (coord L))) w w' :
  process_item L index total listitem rps w = (Ret rps', w') →
  rps' = rps ∨ ∃ wp, rps' = rps ++ [wp] ∧ emits L index listitem wp.
Proof.
  unfold process_item. rewrite script_bind_unfold. unfold try_except, lift.
  destruct (strict_extract L listitem) as [[ptname placeid] | e] eqn:Hstrict.
  - destruct (convert_effect index ptname placeid rps w)
      as (rps1 & more & -> & Hconv).
    intros [= <- <-].
    destruct Hconv as [[-> _] | (wp & code & -> & _ & <- & -> & Hwp)]; [by left |].
    right. exists wp. split; [done |]. exists code. split; [done | by left].
  - destruct (is_Value_Key_TypeError e) eqn:Hcaught; [|done].
    destruct (fallback L index total listitem e w) as [r1 w1] eqn:Hfallback.
    destruct (fallback_inv _ _ _ _ _ _ _ Hfallback) as (more1 & -> & Hfound).
    destruct r1 as [[ptname placeid] | x]; [|done].
    destruct (Hfound _ _ eq_refl) as [-> Hplace].
    match goal with
    | |- context [convert L index ?n placeid rps ?w0] =>
        destruct (convert_effect index n placeid rps w0) as (rps1 & more & -> & Hconv)
    end.
    intros [= <- <-].
    destruct Hconv as [[-> _] | (wp & code & -> & _ & Hname & -> & Hwp)]; [by left |].
    right. exists wp. split; [done |]. exists code. split; [done |].
    right. destruct Hplace as [? | (maplink_a & Hlinks & Hplace)]; [done |].
    by exists e, maplink_a.
Qed.

(** X18. A loop that returns has kept the waypoints it started with and
    appended after them what the list items contributed, item by item in
    the order of the list: each item contributed nothing or one waypoint,
    and the waypoint of the item at offset [i] is the one that item gives at
    position [index + i]: its coordinates are decoded from a code the
    library finds valid and full, which with the name is the result of the
    item's strict extraction, or, when that raised a caught exception, is
    the place id of the item's one map link, the name being 'Delivery no'
    and the position counted from one. *)
Theorem process_items_appends_valid (items : list node) (index total : nat)
    (rps rps' : list (waypoint (coord L))) (w w' : world (coord L)) :
  process_items L index total items rps w = (Ret rps', w') →
  ∃ contributions : list (list (waypoint (coord L))),
    length contributions = length items
    ∧ rps' = rps ++ concat contributions
    ∧ (∀ i listitem contribution,
         items !! i = Some listitem →
         contributions !! i = Some contribution →
         contribution = []
         ∨ ∃ wp, contribution = [wp] ∧ emits L (index + i) listitem wp)
    ∧ length (concat contributions) ≤ length items
    ∧ Forall (λ wp, ∃ code, decoded_from L code wp) (concat contributions).
Proof.
  revert index rps w.
  induction items as [|listitem items IH]; intros index rps w; simpl.
  - intros [= <- <-]. exists []. simpl. rewrite app_nil_r.
    split; [done |]. split; [done |]. split; [by intros [|?] |].
    split; [lia | constructor].
  - rewrite script_bind_unfold.
    destruct (process_item L index total listitem rps w) as [[rps1|x] w1] eqn:Hitem;
      [|done].
    intros Hrest.
    destruct (IH _ _ _ Hrest) as (contributions & Hlen & -> & Heach & Hle & Hvalid).
    assert (∃ contribution,
              rps1 = rps ++ contribution
              ∧ length contribution ≤ 1
              ∧ Forall (λ wp, ∃ code, decoded_from L code wp) contribution
              ∧ (contribution = []
                 ∨ ∃ wp, contribution = [wp] ∧ emits L (index + 0) listitem wp))
      as (contribution & -> & Hone & Hdecoded & Hfirst).
    { destruct (process_item_emits _ _ _ _ _ _ _ Hitem) as [-> | (wp & -> & Hwp)].
      - exists []. rewrite app_nil_r. split; [done |]. split; [simpl; lia |].
        split; [constructor | by left].
      - exists [wp]. split; [done |]. split; [simpl; lia |].
        split; [|right; exists wp; by rewrite Nat.add_0_r].
        constructor; [|constructor]. destruct Hwp as (code & Hcode & _). eauto. }
    exists (contribution :: contributions). simpl.
    split; [by rewrite Hlen |]. split; [by rewrite app_assoc |].
    split; [|split].
    + intros [|i] item c; simpl.
      * by intros [= <-] [= <-].
      * intros Hitem' Hc. rewrite <- Nat.add_succ_comm. by eapply Heach.
    + rewrite length_app. lia.
    + by apply Forall_app.
Qed.

(** X19. No stop is dropped in silence: a loop that returns has printed at
    least one line for every list item that gave no waypoint.  A loop that
    printed nothing has a waypoint for every item. *)
Theorem process_items_no_silent_drop (items : list node) (index total : nat)
    (rps rps' : list (waypoint (coord L))) (w w' : world (coord L)) :
  process_items L index total items rps w = (Ret rps', w') →
  length items + length rps + length (stderr w)
  ≤ length rps' + length (stderr w')
  ∧ (stderr w' = stderr w → length rps' = length rps + length items).
Proof.
  intros H. destruct (process_items_effect _ _ _ _ _ _ _ H) as (more & -> & Hloop).
  destruct (Hloop rps' eq_refl) as (new & -> & Hlen & _ & Hprinted).
  simpl. rewrite !length_app. split; [lia |].
  intros Hsame. assert (length (stderr w ++ more) = length (stderr w)) as Hl
    by (by rewrite Hsame).
  rewrite length_app in Hl. lia.
Qed.

(** X20. Whatever its outcome, the loop writes no file and keeps every line
    printed before it, only adding lines after them. *)
Theorem process_items_world (items : list node) (index total : nat)
    (rps : list (waypoint (coord L))) (w : world (coord L)) :
  files (snd (process_items L index total items rps w)) = files w
  ∧ ∃ more, stderr (snd (process_items L index total items rps w)) = stderr w ++ more.
Proof.
  destruct (process_items L index total items rps w) as [r w'] eqn:H.
  destruct (process_items_effect _ _ _ _ _ _ _ H) as (more & -> & _).
  simpl. eauto.
Qed.

End loop_invariants.

(** X18 at a list of two stops, the second with a short code. *)
Lemma process_items_appends_valid_witness :
  ∃ contributions : list (list (waypoint Lib.coord)),
    length contributions = length [Demo.stop_ok; Demo.stop_short]
    ∧ [ Waypoint (Some "Alex") (Lib.LatitudeOf "8FVC2222+22") (Lib.LongitudeOf "8FVC2222+22") ]
      = [] ++ concat contributions
    ∧ (∀ i listitem contribution,
         [Demo.stop_ok; Demo.stop_short] !! i = Some listitem →
         contributions !! i = Some contribution →
         contribution = []
         ∨ ∃ wp, contribution = [wp]
                 ∧ emits (Demo.lib (Demo.el "html" [])) (0 + i) listitem wp)
    ∧ length (concat contributions) ≤ length [Demo.stop_ok; Demo.stop_short]
    ∧ Forall (λ wp, ∃ code, decoded_from (Demo.lib (Demo.el "html" [])) code wp)
             (concat contributions).
Proof.
  eapply (process_items_appends_valid (Demo.lib (Demo.el "html" []))
            [Demo.stop_ok; Demo.stop_short] 0 2 [] _ (World [] [])).
  vm_compute. reflexivity.
Defined.

(** X19 at the same list: one waypoint for two items, and one line
    printed. *)
Lemma process_items_no_silent_drop_witness :
  length [Demo.stop_ok; Demo.stop_short] + length (@nil (waypoint Lib.coord)) + 0
  ≤ 1 + length [ "Couldn't parse point 2's place ID '2222+22' as a full-length plus code" ].
Proof.
  refine (proj1 (process_items_no_silent_drop (Demo.lib (Demo.el "html" []))
                   [Demo.stop_ok; Demo.stop_short] 0 2 []
                   [ Waypoint (Some "Alex") (Lib.LatitudeOf "8FVC2222+22")
                       (Lib.LongitudeOf "8FVC2222+22") ]
                   (World [] [])
                   (World [ "Couldn't parse point 2's place ID '2222+22' as a full-length plus code" ] [])
                   _)).
  vm_compute. reflexivity.
Defined.

(** ** The route description *)

Lemma split_join_words ws :
  Forall (λ w, Py.is_word w = true) ws → Py.split (Py.join " " ws) = ws.
Proof.
  induction ws as [|w ws IH]; [done |].
  intros HF. inversion HF as [|? ? Hw HF']; subst.
  destruct ws as [|w' ws]; [by apply split_word |].
  change (Py.join " " (w :: w' :: ws)) with (w +:+ String " " (Py.join " " (w' :: ws))).
  rewrite split_app_space; [|done]. rewrite split_word by done. by rewrite IH.
Qed.

(** Collapsing whitespace twice is collapsing it once. *)
Lemma normalise_idempotent text :
  Py.join " " (Py.split (Py.join " " (Py.split text))) = Py.join " " (Py.split text).
Proof. by rewrite split_join_words by apply split_words. Qed.

Section route_description.

Context (L : extlib).

Lemma route_metadata_effect main (w : world (coord L)) r w' :
  route_metadata L main w = (r, w') →
  match r with
  | Ret (Some description) =>
      w' = w ∧ Py.join " " (Py.split description) = description
  | Ret None =>
      w' = World (stderr w ++ ["Couldn't find route description, continuing anyway"])
                 (files w)
  | Raise x => w' = w ∧ is_Value_KeyError x = false
  end.
Proof.
  unfold route_metadata, try_except, lift.
  destruct (unpack2 _ ≫= _) as [v|x] eqn:Hm.
  - intros [= <- <-].
    step_back Hm as divs Edivs. destruct divs as [l1div1 l1div2].
    step_back Hm as l2 E2. step_back Hm as reset Ereset.
    step_back Hm as l3div1 Einner. injection Hm as <-.
    split; [done |]. apply normalise_idempotent.
  - destruct (is_Value_KeyError x) eqn:Hx.
    + intros [= <- <-]. done.
    + intros [= <- <-]. done.
Qed.

(** X24. A route description that is found is normalised: collapsing its
    whitespace again changes nothing (words separated by single spaces,
    nothing before the first or after the last), and finding it prints
    nothing. *)
Theorem route_description_normalised (main : node) (w w' : world (coord L))
    (description : string) :
  route_metadata L main w = (Ret (Some description), w') →
  w' = w ∧ Py.join " " (Py.split description) = description.
Proof. intros H. exact (route_metadata_effect _ _ _ _ H). Qed.

(** X25. The description step has three outcomes only: a description,
    with nothing printed; no description, with the one line 'Couldn't find
    route description, continuing anyway'; or an exception that is neither
    [ValueError] nor [KeyError], with nothing printed.  It writes no file. *)
Theorem route_metadata_outcomes (main : node) (w : world (coord L)) :
  files (snd (route_metadata L main w)) = files w
  ∧ match fst (route_metadata L main w) with
    | Ret (Some description) => snd (route_metadata L main w) = w
    | Ret None =>
        stderr (snd (route_metadata L main w))
        = stderr w ++ ["Couldn't find route description, continuing anyway"]
    | Raise x => snd (route_metadata L main w) = w ∧ is_Value_KeyError x = false
    end.
Proof.
  destruct (route_metadata L main w) as [r w'] eqn:H.
  pose proof (route_metadata_effect _ _ _ _ H) as He. simpl.
  destruct r as [[description|] | x].
  - by destruct He as [-> _].
  - by subst w'.
  - by destruct He as [-> ?].
Qed.

(** X26. A description block that holds no inner block, or several, gives no
    description: the step is caught and prints its one line. *)
Theorem route_metadata_no_inner_block (main l1div1 l1div2 route_reset_div : node)
    (l2 : gmap string node) (w : world (coord L)) :
  Dom.xpath_child "div" main = [l1div1; l1div2] →
  match_tags L l1div2 pattern_content = Ret (Some l2) →
  l2 !! "route_reset_div" = Some route_reset_div →
  length (Dom.xpath_child "div" route_reset_div) ≠ 1 →
  route_metadata L main w
  = (Ret None,
     World (stderr w ++ ["Couldn't find route description, continuing anyway"])
           (files w)).
Proof.
  intros Hdivs Hmatch Hreset Hinner. unfold route_metadata, try_except, lift.
  rewrite Hdivs. simpl. rewrite Hmatch. simpl. rewrite Hreset. simpl.
  destruct (Dom.xpath_child "div" route_reset_div) as [|d1 [|d2 ds]];
    simpl in *; [| done |]; unfold unpack_error; simpl; done.
Qed.

End route_description.

(** ** The script as a whole *)

Section whole_script.

Context (L : extlib).

Lemma unpack1_not_one {A} (l : list A) :
  length l ≠ 1 → ∃ msg, unpack1 l = Raise (ValueError msg).
Proof.
  destruct l as [|a [|b l]]; simpl; [| done |]; intros _;
    unfold unpack_error; simpl; eauto.
Qed.

(** X21. A page without its route list, or with several lists, ends the
    run before any item is looked at: the hint about saving the page from a
    browser is the only line printed, the [ValueError] of the lookup is
    raised again, the exit status is 1, and no file is written. *)
Theorem missing_list_aborts (argv more : list string) (program filename : string)
    (tree main : node) :
  argv = program :: filename :: more →
  html_parse L filename = Ret tree →
  Dom.xpath_anywhere "main" tree = [main] →
  length (Dom.xpath_descendant "ul" main) ≠ 1 →
  ∃ msg, run L argv = (Raise (ValueError msg), World [no_list_hint] [])
         ∧ exit_status (fst (run L argv)) = 1.
Proof.
  intros -> Hparse Hmain Hul.
  destruct (unpack1_not_one _ Hul) as [msg Hmsg]. exists msg.
  unfold run, cck_gpx, try_except, lift, argv_get, print_err, raise.
  unfold mbind, script_bind, sbind, mret, script_ret, sret. simpl.
  rewrite Hparse, Hmain. simpl. by rewrite Hmsg.
Qed.

(** X22. A page without exactly one [main] element ends the run on the
    [ValueError] of the lookup, with nothing printed and nothing written. *)
Theorem missing_main_aborts (argv more : list string) (program filename : string)
    (tree : node) :
  argv = program :: filename :: more →
  html_parse L filename = Ret tree →
  length (Dom.xpath_anywhere "main" tree) ≠ 1 →
  ∃ msg, run L argv = (Raise (ValueError msg), World [] [])
         ∧ exit_status (fst (run L argv)) = 1.
Proof.
  intros -> Hparse Hmain.
  destruct (unpack1_not_one _ Hmain) as [msg Hmsg]. exists msg.
  unfold run, cck_gpx, try_except, lift, argv_get, print_err, raise.
  unfold mbind, script_bind, sbind, mret, script_ret, sret. simpl.
  rewrite Hparse. simpl. by rewrite Hmsg.
Qed.

(** What follows the loop writes one file when it returns, and none
    otherwise. *)
Lemma after_loop_effect argv main (rps : list (waypoint (coord L))) items w r w' :
  after_loop L argv main rps items w = (r, w') →
  match r with
  | Ret _ =>
      rps ≠ []
      ∧ ∃ filename description,
          argv !! 2 = Some filename
          ∧ description ≠ Some ""
          ∧ files w' = files w ++ [(filename, Gpx description rps)]
  | Raise _ => files w' = files w
  end.
Proof.
  unfold after_loop. rewrite script_bind_unfold, post_loop_unfold.
  destruct (length rps =? 0)%nat eqn:Hrps; [by intros [= <- <-] |].
  rewrite script_bind_unfold.
  match goal with
  | |- context [route_metadata L main ?w1] =>
      destruct (route_metadata L main w1) as [r1 w1'] eqn:Hmeta;
      assert (files w1' = files w1) as Hfiles
        by (pose proof (route_metadata_effect L _ _ _ _ Hmeta) as He;
            destruct r1 as [[?|]|?]; [by destruct He as [-> _] | by subst w1'
                                     | by destruct He as [-> _]]);
      simpl in Hfiles
  end.
  destruct r1 as [route_description | x]; [|by intros [= <- <-]].
  unfold write_output, lift, write_gpx, argv_get.
  unfold mbind, script_bind, sbind.
  destruct (argv !! 2) as [filename|]; [|by intros [= <- <-]].
  destruct (open_w L filename) as [[]|x]; [|by intros [= <- <-]].
  intros [= <- <-]. split; [by destruct rps |].
  eexists filename, _. split; [done |]. split; [|by rewrite Hfiles].
  by destruct route_description as [[|c s]|].
Qed.

Lemma cck_gpx_effect argv r (w : world (coord L)) :
  cck_gpx L argv (World [] []) = (r, w) →
  match r with
  | Ret _ =>
      ∃ filename description waypoints,
        argv !! 2 = Some filename
        ∧ files w = [(filename, Gpx description waypoints)]
        ∧ waypoints ≠ []
        ∧ Forall (λ wp, ∃ code, decoded_from L code wp) waypoints
        ∧ description ≠ Some ""
  | Raise _ => files w = []
  end.
Proof.
  unfold cck_gpx. rewrite script_bind_unfold.
  destruct (length argv <? 2)%nat; [by intros [= <- <-] |].
  change ((mret tt : script (coord L) ()) (World [] []))
    with (Ret tt, World (C:=coord L) [] []).
  cbv beta iota. rewrite script_bind_unfold. unfold lift at 1.
  destruct (argv_get argv 1) as [filename|]; [|by intros [= <- <-]].
  rewrite script_bind_unfold. unfold lift at 1.
  destruct (html_parse L filename) as [tree|]; [|by intros [= <- <-]].
  rewrite script_bind_unfold. unfold lift at 1.
  destruct (unpack1 (Dom.xpath_anywhere "main" tree)) as [main|];
    [|by intros [= <- <-]].
  rewrite script_bind_unfold. unfold try_except, lift at 1.
  destruct (unpack1 (Dom.xpath_descendant "ul" main)) as [ulist|x].
  2:{ destruct (is_ValueError x); by intros [= <- <-]. }
  cbv beta iota zeta. rewrite script_bind_unfold.
  set (items := Dom.xpath_child "li" ulist).
  set (w1 := snd ((if (length items =? 0)%nat
                   then print_err "Found list, but no route points in it!"
                   else mret tt) (World (C:=coord L) [] []))).
  assert ((if (length items =? 0)%nat
           then print_err "Found list, but no route points in it!"
           else mret tt) (World (C:=coord L) [] []) = (Ret tt, w1)
          ∧ files w1 = []) as [-> Hw1].
  { subst w1. by destruct (length items =? 0)%nat. }
  rewrite script_bind_unfold.
  destruct (process_items L 0 (length items) items [] w1) as [r2 w2] eqn:Hloop.
  destruct (process_items_effect L _ _ _ _ _ _ _ Hloop) as (more & -> & Hnew).
  destruct r2 as [rps|x]; [|by intros [= <- <-]].
  destruct (Hnew rps eq_refl) as (new & -> & _ & Hvalid & _). simpl app.
  intros Hafter.
  pose proof (after_loop_effect _ _ _ _ _ _ _ Hafter) as Heff. simpl in Heff.
  destruct r as [[]|x].
  - destruct Heff as (Hne & filename' & description & Hargv & Hdesc & Hfiles).
    rewrite Hw1 in Hfiles. simpl in Hfiles. eauto 10.
  - by rewrite Heff.
Qed.

(** X23. The output file is the last thing the script does.  A run that
    ends normally has written exactly one file, named by the second
    argument, whose waypoints are not empty and each have the coordinates
    the library decodes from a code it finds valid and full; its description
    is never the empty string.  A run that ends in any other way has written
    no file. *)
Theorem run_output_contract (argv : list string) :
  match fst (run L argv) with
  | Ret _ =>
      ∃ filename description waypoints,
        argv !! 2 = Some filename
        ∧ files (snd (run L argv)) = [(filename, Gpx description waypoints)]
        ∧ waypoints ≠ []
        ∧ Forall (λ wp, ∃ code, decoded_from L code wp) waypoints
        ∧ description ≠ Some ""
  | Raise _ => files (snd (run L argv)) = []
  end.
Proof.
  unfold run. destruct (cck_gpx L argv (World [] [])) as [r w] eqn:Hrun.
  exact (cck_gpx_effect _ _ _ Hrun).
Qed.

End whole_script.

(** X21 at a page whose [main] is empty. *)
Lemma missing_list_aborts_witness :
  ∃ msg,
    run (Demo.lib (Demo.el "html" [Demo.el "body" [Demo.el "main" []]]))
      ["cck_gpx.py"; "in.html"; "out.gpx"]
    = (Raise (ValueError msg), World [no_list_hint] [])
    ∧ exit_status
        (fst (run (Demo.lib (Demo.el "html" [Demo.el "body" [Demo.el "main" []]]))
                ["cck_gpx.py"; "in.html"; "out.gpx"])) = 1.
Proof.
  apply (missing_list_aborts
           (Demo.lib (Demo.el "html" [Demo.el "body" [Demo.el "main" []]]))
           ["cck_gpx.py"; "in.html"; "out.gpx"] ["out.gpx"] "cck_gpx.py" "in.html"
           (Demo.el "html" [Demo.el "body" [Demo.el "main" []]]) (Demo.el "main" []));
    [reflexivity | reflexivity | reflexivity | simpl; lia].
Defined.

(** X22 at a page without [main]. *)
Lemma missing_main_aborts_witness :
  ∃ msg,
    run (Demo.lib (Demo.el "html" [Demo.el "body" []]))
      ["cck_gpx.py"; "in.html"; "out.gpx"]
    = (Raise (ValueError msg), World [] [])
    ∧ exit_status
        (fst (run (Demo.lib (Demo.el "html" [Demo.el "body" []]))
                ["cck_gpx.py"; "in.html"; "out.gpx"])) = 1.
Proof.
  apply (missing_main_aborts (Demo.lib (Demo.el "html" [Demo.el "body" []]))
           ["cck_gpx.py"; "in.html"; "out.gpx"] ["out.gpx"] "cck_gpx.py" "in.html"
           (Demo.el "html" [Demo.el "body" []]));
    [reflexivity | reflexivity | simpl; lia].
Defined.

(** X24 at a content block whose description is spread over two elements
    and several lines. *)
Lemma route_description_normalised_witness :
  World [] [] = World (C:=Lib.coord) [] []
  ∧ Py.join " " (Py.split "Deliveries for 04/09/2022 in Demo")
    = "Deliveries for 04/09/2022 in Demo".
Proof.
  apply (route_description_normalised (Demo.lib (Demo.el "html" []))
           (Demo.el "main"
              [ Demo.el "div" [];
                Demo.el "div"
                  [ Demo.el "div"
                      [ Demo.el "div"
                          [ TextNode (String "010" "  Deliveries for ");
                            Demo.el "b" [TextNode "04/09/2022"];
                            TextNode (String "010" " in   Demo ") ];
                        Demo.el "button" [TextNode "Reset"] ];
                    Demo.el "ul" [];
                    Demo.el "div" [] ] ])
           (World [] []) (World [] []) "Deliveries for 04/09/2022 in Demo").
  vm_compute. reflexivity.
Defined.

(** X26 at a description block with two inner blocks. *)
Lemma route_metadata_no_inner_block_witness :
  route_metadata (Demo.lib (Demo.el "html" []))
    (Demo.el "main"
       [ Demo.el "div" [];
         Demo.el "div"
           [ Demo.el "div" [ Demo.el "div" []; Demo.el "div" [] ];
             Demo.el "ul" [];
             Demo.el "div" [] ] ])
    (World [] [])
  = (Ret None, World ["Couldn't find route description, continuing anyway"] []).
Proof.
  apply (route_metadata_no_inner_block (Demo.lib (Demo.el "html" []))
           (Demo.el "main"
              [ Demo.el "div" [];
                Demo.el "div"
                  [ Demo.el "div" [ Demo.el "div" []; Demo.el "div" [] ];
                    Demo.el "ul" [];
                    Demo.el "div" [] ] ])
           (Demo.el "div" [])
           (Demo.el "div"
              [ Demo.el "div" [ Demo.el "div" []; Demo.el "div" [] ];
                Demo.el "ul" [];
                Demo.el "div" [] ])
           (Demo.el "div" [ Demo.el "div" []; Demo.el "div" [] ])
           {[ "route_reset_div" := Demo.el "div" [ Demo.el "div" []; Demo.el "div" [] ] ]}
           (World [] []));
    [reflexivity | vm_compute; reflexivity | vm_compute; reflexivity | simpl; lia].
Defined.

(** X27 at a [main] with three blocks. *)
Lemma route_metadata_wrong_count_witness :
  route_metadata (Demo.lib (Demo.el "html" []))
    (Demo.el "main" [ Demo.el "div" []; Demo.el "div" []; Demo.el "div" [] ])
    (World [] [])
  = (Ret None, World ["Couldn't find route description, continuing anyway"] []).
Proof.
  apply (route_metadata_wrong_count (Demo.lib (Demo.el "html" []))
           (Demo.el "main" [ Demo.el "div" []; Demo.el "div" []; Demo.el "div" [] ])
           (World [] [])).
  simpl. lia.
Defined.

(** ** One item, from the page to the waypoint *)

Section one_item.

Context (L : extlib).

(** X28. A stop that the strict extraction understood and whose code is
    full becomes a waypoint under the name derived from the full name, with
    the coordinates the library decodes, and nothing is printed. *)
Theorem strict_stop_emitted (index total : nat) (listitem : node)
    (rps : list (waypoint (coord L))) (w : world (coord L))
    (ptname : option string) (code : string) :
  strict_extract L listitem = Ret (ptname, Some code) →
  code ≠ "" →
  olc_isFull L code = true →
  process_item L index total listitem rps w
  = (Ret (rps ++ [ Waypoint ptname (fst (olc_decode_latlng L code))
                     (snd (olc_decode_latlng L code)) ]),
     w)
  ∧ ∃ fullname, ptname = firstnameish fullname.
Proof.
  intros Hstrict Hne Hfull.
  destruct (strict_extract_inv L _ _ _ Hstrict)
    as (code' & fields & l3 & mapurl & fullname & _ & [= <-] & _ & _ & _ & Hvalid & _ & Hname).
  split; [|eauto].
  rewrite (process_item_strict L _ _ _ _ _ _ _ Hstrict).
  unfold convert. simpl. rewrite Hvalid, Hfull.
  destruct code; [done |]. simpl.
  by destruct (olc_decode_latlng L _).
Qed.

(** X29. An item whose strict extraction failed with one of the caught
    exceptions and which holds exactly one map link, with a place id that is
    a valid full code, becomes a waypoint named 'Delivery no N' with the
    coordinates of that code; the exception and the item's position are the
    two lines printed. *)
Theorem fallback_stop_emitted (index total : nat) (listitem maplink_a : node)
    (rps : list (waypoint (coord L))) (w : world (coord L))
    (e : exn) (code : string) :
  strict_extract L listitem = Raise e →
  is_Value_Key_TypeError e = true →
  Dom.xpath_links_containing "google.com/maps" listitem = [maplink_a] →
  place_id_from_google_maps_url L (Dom.get "href" maplink_a) = Ret (Some code) →
  code ≠ "" →
  olc_isValid L code = true →
  olc_isFull L code = true →
  process_item L index total listitem rps w
  = (Ret (rps ++ [ Waypoint (Some ("Delivery no " +:+ Py.str_of_nat (index + 1)))
                     (fst (olc_decode_latlng L code))
                     (snd (olc_decode_latlng L code)) ]),
     World (stderr w
            ++ [ str_of_exn e;
                 "Failed to fully understand route point "
                 +:+ Py.str_of_nat (index + 1) +:+ " (of "
                 +:+ Py.str_of_nat total +:+ "), falling back to URL-only" ])
           (files w)).
Proof.
  intros Hstrict Hcaught Hlinks Hplace Hne Hvalid Hfull.
  rewrite (process_item_fallback L _ _ _ _ _ _ Hstrict Hcaught).
  unfold fallback, try_except, lift, convert, print_err.
  rewrite Hlinks. simpl unpack1. rewrite bind_Ret, Hplace.
  unfold mbind, script_bind, sbind, mret, script_ret, sret. simpl.
  rewrite Hvalid, Hfull. destruct code; [done |]. simpl.
  destruct (olc_decode_latlng L _). simpl. by rewrite <- !app_assoc.
Qed.

End one_item.

(** X28 at a stop of the full shape with a full code. *)
Lemma strict_stop_emitted_witness :
  process_item (Demo.lib (Demo.el "html" [])) 0 1 Demo.stop_ok [] (World [] [])
  = (Ret ([] ++ [ Waypoint (Some "Alex")
                    (fst (Lib.decode_latlng "8FVC2222+22"))
                    (snd (Lib.decode_latlng "8FVC2222+22")) ]),
     World [] [])
  ∧ ∃ fullname, Some "Alex" = firstnameish fullname.
Proof.
  apply (strict_stop_emitted (Demo.lib (Demo.el "html" [])) 0 1 Demo.stop_ok []
           (World [] []) (Some "Alex") "8FVC2222+22");
    [vm_compute; reflexivity | discriminate | reflexivity].
Defined.

(** X29 at the stop whose text and map link disagree. *)
Lemma fallback_stop_emitted_witness :
  process_item (Demo.lib (Demo.el "html" [])) 0 1 Demo.stop_mismatch [] (World [] [])
  = (Ret ([] ++ [ Waypoint (Some ("Delivery no " +:+ Py.str_of_nat (0 + 1)))
                    (fst (Lib.decode_latlng "8FVC9999+99"))
                    (snd (Lib.decode_latlng "8FVC9999+99")) ]),
     World ([] ++ [ str_of_exn (ValueError "Thought '8FVC2222+22' was the plus code, but it doesn't match the map URL ('8FVC9999+99'); assuming lost");
                    "Failed to fully understand route point "
                    +:+ Py.str_of_nat (0 + 1) +:+ " (of "
                    +:+ Py.str_of_nat 1 +:+ "), falling back to URL-only" ])
           []).
Proof.
  apply (fallback_stop_emitted (Demo.lib (Demo.el "html" [])) 0 1 Demo.stop_mismatch
           (Demo.a (Demo.maps_url "8FVC9999+99") "Google Maps") [] (World [] [])
           (ValueError "Thought '8FVC2222+22' was the plus code, but it doesn't match the map URL ('8FVC9999+99'); assuming lost")
           "8FVC9999+99");
    [vm_compute; reflexivity | reflexivity | vm_compute; reflexivity
    | vm_compute; reflexivity | discriminate | reflexivity | reflexivity].
Defined.

(** ** Runs that stop short *)

(** C9. A run that emits a waypoint and writes no output file.  On a page
    whose content block holds the route list alone, the loop understands the
    one stop and the accounting after the loop lets the run go on; the run
    then ends on the [TypeError] of the description step, and no file is
    written.  With the output path left out of the arguments the run of a
    well-formed page ends on the [IndexError] of [sys.argv[2]], again with a
    waypoint and without a file. *)
Theorem waypoint_run_without_output :
  process_items (Demo.lib (Demo.bare_page_of [Demo.stop_ok])) 0 1 [Demo.stop_ok] []
    (World [] [])
  = (Ret [ Waypoint (Some "Alex") (Lib.LatitudeOf "8FVC2222+22")
             (Lib.LongitudeOf "8FVC2222+22") ],
     World [] [])
  ∧ post_loop (Demo.lib (Demo.bare_page_of [Demo.stop_ok]))
      [ Waypoint (Some "Alex") (Lib.LatitudeOf "8FVC2222+22")
          (Lib.LongitudeOf "8FVC2222+22") ]
      [Demo.stop_ok] (World [] [])
    = (Ret tt, World [] [])
  ∧ run (Demo.lib (Demo.bare_page_of [Demo.stop_ok]))
      ["cck_gpx.py"; "in.html"; "out.gpx"]
    = (Raise (TypeError "'NoneType' object is not subscriptable"), World [] [])
  ∧ files (snd (run (Demo.lib (Demo.bare_page_of [Demo.stop_ok]))
                  ["cck_gpx.py"; "in.html"; "out.gpx"])) = []
  ∧ run (Demo.lib (Demo.page_of [Demo.stop_ok])) ["cck_gpx.py"; "in.html"]
    = (Raise (IndexError "list index out of range"), World [] [])
  ∧ files (snd (run (Demo.lib (Demo.page_of [Demo.stop_ok]))
                  ["cck_gpx.py"; "in.html"])) = [].
Proof. by vm_compute. Qed.

(** The portions check where it is reached.  When the item, its block and
    the name block match their patterns and the text of the matched portions
    block lacks 'portion', the turn of the loop prints the message of the
    [ValueError] and the line naming the item's position, directly after what
    was printed before, and writes no file; a waypoint it appends is named
    'Delivery no' with the position counted from one, and is the one the
    item gives through its one map link. *)
Lemma portions_check_outcome (L : extlib) (index total : nat) (listitem : node)
    (rps : list (waypoint (coord L))) (w : world (coord L))
    (l1 l2 l3 : gmap string node) (div1 name_olc_div portions_div : node)
    (r : outcome (list (waypoint (coord L)))) (w' : world (coord L)) :
  match_tags L listitem pattern_item = Ret (Some l1) →
  l1 !! "div1" = Some div1 →
  match_tags L div1 pattern_stop = Ret (Some l2) →
  l2 !! "name_olc_div" = Some name_olc_div →
  match_tags L name_olc_div pattern_name_olc = Ret (Some l3) →
  l2 !! "portions_div" = Some portions_div →
  Py.contains "portion" (Dom.text_content portions_div) = false →
  process_item L index total listitem rps w = (r, w') →
  falls_back L listitem
  ∧ ∃ more,
      w' = World (stderr w
                  ++ [ "Didn't find 'portion' where expected (found '"
                       +:+ Dom.text_content portions_div +:+ "'); assuming lost";
                       "Failed to fully understand route point "
                       +:+ Py.str_of_nat (index + 1) +:+ " (of "
                       +:+ Py.str_of_nat total +:+ "), falling back to URL-only" ]
                  ++ more) (files w)
      ∧ ∀ rps', r = Ret rps' →
          rps' = rps
          ∨ ∃ wp, rps' = rps ++ [wp]
                  ∧ wp_name wp = Some ("Delivery no " +:+ Py.str_of_nat (index + 1))
                  ∧ emits L index listitem wp.
Proof.
  intros H1 Hdiv1 H2 Hname H3 Hportions Hlacks Hrun.
  destruct (portions_check_falls_back L index total listitem rps w
              l1 l2 l3 div1 name_olc_div portions_div
              H1 Hdiv1 H2 Hname H3 Hportions Hlacks) as [Hstrict Hproc].
  split; [eexists; split; [exact Hstrict | done] |].
  rewrite Hproc in Hrun. rewrite script_bind_unfold in Hrun.
  match type of Hrun with
  | context [fallback L index total listitem ?e w] =>
      destruct (fallback L index total listitem e w) as [r1 w1] eqn:Hfallback;
      destruct (fallback_inv L _ _ _ _ _ _ _ Hfallback) as (more1 & -> & Hfound)
  end.
  destruct r1 as [[ptname placeid] | x].
  - destruct (Hfound _ _ eq_refl) as [-> Hplace].
    match type of Hrun with
    | context [convert L index ?n placeid rps ?w0] =>
        destruct (convert_effect L index n placeid rps w0)
          as (rps1 & more & Hconvert & Hconv)
    end.
    rewrite Hconvert in Hrun. injection Hrun as <- <-.
    exists (more1 ++ more). simpl. split; [by rewrite <- !app_assoc |].
    intros ? [= <-].
    destruct Hconv as [[-> _] | (wp & code & -> & _ & Hwp_name & -> & Hwp)];
      [by left |].
    right. exists wp. split; [done |]. split; [done |].
    exists code. split; [done |]. right.
    destruct Hplace as [? | (maplink_a & Hlinks & Hplace)]; [done |].
    eexists _, maplink_a. split; [exact Hstrict |]. done.
  - injection Hrun as <- <-. exists more1. split; [done | done].
Qed.

(** C10. A list item whose portions block lacks 'portion' and which is not
    handed to the fallback.  The item and its block match their patterns, so
    that the portions block is matched, and its text does not hold
    'portion'; but the name block holds one paragraph for the two slots of
    its pattern, [match_tags] raises [IndexError] before the portions text is
    looked at, and the [except] clause of the loop does not name it: no
    diagnostic, no fallback, and the run ends there. *)
Theorem portions_check_not_reached :
  (∃ (l1 l2 : gmap string node) (div1 : node),
     match_tags (Demo.lib (Demo.el "html" [])) stop_name_alone pattern_item
     = Ret (Some l1)
     ∧ l1 !! "div1" = Some div1
     ∧ match_tags (Demo.lib (Demo.el "html" [])) div1 pattern_stop = Ret (Some l2)
     ∧ l2 !! "portions_div" = Some (Demo.portions_block "2 meals"))
  ∧ Py.contains "portion" (Dom.text_content (Demo.portions_block "2 meals")) = false
  ∧ strict_extract (Demo.lib (Demo.el "html" [])) stop_name_alone
    = Raise (IndexError "pop from empty list")
  ∧ ¬ falls_back (Demo.lib (Demo.el "html" [])) stop_name_alone
  ∧ process_item (Demo.lib (Demo.el "html" [])) 0 1 stop_name_alone [] (World [] [])
    = (Raise (IndexError "pop from empty list"), World [] [])
  ∧ run (Demo.lib (Demo.page_of [stop_name_alone]))
      ["cck_gpx.py"; "in.html"; "out.gpx"]
    = (Raise (IndexError "pop from empty list"), World [] []).
Proof.
  assert (strict_extract (Demo.lib (Demo.el "html" [])) stop_name_alone
          = Raise (IndexError "pop from empty list")) as Hstrict by (by vm_compute).
  split; [|split; [by vm_compute |split; [done |split; [|split; by vm_compute]]]].
  - eexists _, _, _. split; [vm_compute; reflexivity |].
    split; [vm_compute; reflexivity |]. split; vm_compute; reflexivity.
  - intros (e & He & Hcaught). rewrite Hstrict in He. by injection He as <-.
Qed.

(** X7. [match_tags] raises [IndexError] only for a pattern without
    optional slot and a parent with fewer children than the pattern has
    slots: with an optional slot the lengths are compared first, and the
    loop never runs out of children. *)
Theorem match_tags_IndexError_only (L : extlib) (startnode : node)
    (pattern : list slot) (msg : string) :
  match_tags L startnode pattern = Raise (IndexError msg) →
  List.filter slot_opt pattern = []
  ∧ length (Dom.xpath_elements_and_text startnode) < length pattern.
Proof.
  intros H.
  destruct (match_tags_Raise L _ _ _ H)
    as [[Hx _] | [(tagd & n & _ & _ & _ & Hx) | (_ & Hopt & Hlen)]];
    [discriminate Hx | discriminate Hx | done].
Qed.

(** X7 at the list item without children. *)
Lemma match_tags_IndexError_only_witness :
  List.filter slot_opt pattern_item = []
  ∧ length (Dom.xpath_elements_and_text Demo.empty_item) < length pattern_item.
Proof.
  apply (match_tags_IndexError_only (Demo.lib (Demo.el "html" [])) Demo.empty_item
           pattern_item "pop from empty list").
  reflexivity.
Defined.
